(** * Crash predictor (app.py): under-count strategy over the last 20 rounds

    A shallow embedding of [app.py] and the properties of its normalizer,
    predictor, settlement, balance ledgers, accuracy tracker and of one
    script run of [main].

    Modelling conventions.
    - A Python [float] is an IEEE 754 binary64 number: Rocq's primitive
      [float], whose operations compute as Python's do (NaN included).
      Integer cells of an imported CSV are the floats of the same value.
    - The persisted files are modelled by the value they hold, as the
      application writes them: a CSV file by its table, a balance file by
      the number in it.  The text codecs of pandas ([to_csv], [read_csv])
      and of Python ([str], [float] on a number's own text) are library
      code and are taken as lossless.
    - Python exceptions are values of [exn]; a raising statement keeps the
      effects that happened before it. *)

From Stdlib Require Import Floats ZArith List String Bool Lia.
Import ListNotations.

Set Warnings "-inexact-float".

Local Open Scope string_scope.
Local Open Scope list_scope.
Local Open Scope Z_scope.

(** ** Constants (app.py, lines 7-18) *)

Inductive path : Type :=
| HISTORY_FILE   (* "history.csv" *)
| RESULTS_FILE   (* "results.csv" *)
| FLAT_FILE      (* "sol_balance.txt" *)
| FIXED_FILE.    (* "fixed_balance.txt" *)

Definition path_name (p : path) : string :=
  match p with
  | HISTORY_FILE => "history.csv"
  | RESULTS_FILE => "results.csv"
  | FLAT_FILE => "sol_balance.txt"
  | FIXED_FILE => "fixed_balance.txt"
  end.

Definition INITIAL_BALANCE : float := 0.1%float.
Definition FLAT_BET : float := 0.01%float.
Definition FIXED_BET : float := 0.02%float.
Definition WINDOW : Z := 20.
Definition MIN_UNDERS_FOR_ABOVE : Z := 14.

(** ** Python values *)

(** [x > y] and [x <= y] on floats; both are false when an operand is NaN. *)
Definition fgt (x y : float) : bool := PrimFloat.ltb y x.
Definition fle (x y : float) : bool := PrimFloat.leb x y.
Definition flt (x y : float) : bool := PrimFloat.ltb x y.

Inductive exn : Type := KeyError | IndexError | ValueError | AttributeError.

Inductive result (A : Type) : Type :=
| Ok (a : A)
| Err (e : exn).
Arguments Ok {A} a.
Arguments Err {A} e.

(** [len(l)] as a Python int. *)
Definition len {A : Type} (l : list A) : Z := Z.of_nat (List.length l).

(** [l[start:]]: a negative start counts from the end, and the start is
    clamped to the list. *)
Definition slice_from {A : Type} (start : Z) (l : list A) : list A :=
  let start' := if start <? 0 then Z.max (start + len l) 0
                else Z.min start (len l) in
  skipn (Z.to_nat start') l.

(** The sum of a boolean array ([np.sum], [Series.sum]) as a Python int:
    True counts 1, False 0. *)
Definition sum_bool (mask : list bool) : Z :=
  fold_left (fun acc (b : bool) => acc + (if b then 1 else 0)) mask 0.

(** [a / b] on Python ints that a float holds exactly (below 2^53). *)
Definition int_truediv (a b : Z) : float :=
  (PrimFloat.of_uint63 (Uint63.of_Z a) / PrimFloat.of_uint63 (Uint63.of_Z b))%float.

(** ** Tables *)

(** A numeric table as [pd.read_csv] returns it: named columns, in order. *)
Definition DataFrame : Type := list (string * list float).

(** [df[name]], [None] standing for the KeyError of a missing column. *)
Fixpoint column (name : string) (df : DataFrame) : option (list float) :=
  match df with
  | [] => None
  | (n, cells) :: rest => if String.eqb name n then Some cells else column name rest
  end.

(** One row of results.csv: columns 'prediction', 'actual', 'correct'. *)
Record ResultRow : Type := mkRow {
  prediction : string;
  actual : float;
  correct : bool
}.

(** ** Persisted state: the four files, each absent or holding its value *)

Record Disk : Type := mkDisk {
  history_csv : option DataFrame;
  results_csv : option (list ResultRow);
  sol_balance_txt : option float;
  fixed_balance_txt : option float
}.

Definition isSome {A : Type} (o : option A) : bool :=
  match o with Some _ => true | None => false end.

(** [os.path.exists] *)
Definition path_exists (p : path) (d : Disk) : bool :=
  match p with
  | HISTORY_FILE => isSome (history_csv d)
  | RESULTS_FILE => isSome (results_csv d)
  | FLAT_FILE => isSome (sol_balance_txt d)
  | FIXED_FILE => isSome (fixed_balance_txt d)
  end.

(** [os.remove] *)
Definition os_remove (p : path) (d : Disk) : Disk :=
  match p with
  | HISTORY_FILE => mkDisk None (results_csv d) (sol_balance_txt d) (fixed_balance_txt d)
  | RESULTS_FILE => mkDisk (history_csv d) None (sol_balance_txt d) (fixed_balance_txt d)
  | FLAT_FILE => mkDisk (history_csv d) (results_csv d) None (fixed_balance_txt d)
  | FIXED_FILE => mkDisk (history_csv d) (results_csv d) (sol_balance_txt d) None
  end.

Definition write_history (df : DataFrame) (d : Disk) : Disk :=
  mkDisk (Some df) (results_csv d) (sol_balance_txt d) (fixed_balance_txt d).

Definition write_results (rows : list ResultRow) (d : Disk) : Disk :=
  mkDisk (history_csv d) (Some rows) (sol_balance_txt d) (fixed_balance_txt d).

Definition write_flat (x : float) (d : Disk) : Disk :=
  mkDisk (history_csv d) (results_csv d) (Some x) (fixed_balance_txt d).

Definition write_fixed (x : float) (d : Disk) : Disk :=
  mkDisk (history_csv d) (results_csv d) (sol_balance_txt d) (Some x).

Definition empty_disk : Disk := mkDisk None None None None.

(** ** Data helpers (lines 20-49) *)

(** [load_csv(file)], on the table read from the uploaded file. *)
Definition load_csv (df : DataFrame) : result (list float) :=
  match column "multiplier" df with
  | Some cells => Ok cells
  | None =>
      match df with
      | (_, cells) :: _ => Ok cells
      | [] => Err IndexError
      end
  end.

Definition load_history (d : Disk) : result (list float) :=
  match history_csv d with
  | Some df =>
      match column "multiplier" df with
      | Some cells => Ok cells
      | None => Err KeyError
      end
  | None => Ok []
  end.

Definition save_history (data : list float) (d : Disk) : Disk :=
  write_history [("multiplier", data)] d.

Definition load_results (d : Disk) : list ResultRow :=
  match results_csv d with
  | Some rows => rows
  | None => []
  end.

(** ** Balance handlers (lines 51-80) *)

Definition get_flat_balance (d : Disk) : float :=
  match sol_balance_txt d with
  | Some x => x
  | None => INITIAL_BALANCE
  end.

Definition get_fixed_balance (d : Disk) : float :=
  match fixed_balance_txt d with
  | Some x => x
  | None => INITIAL_BALANCE
  end.

Definition update_flat_balance (prediction : string) (actual : float) (d : Disk) : Disk :=
  let balance := get_flat_balance d in
  if String.eqb prediction "Above" then
    let balance := (balance + (if fgt actual 2.0 then FLAT_BET else - FLAT_BET))%float in
    write_flat balance d
  else d.

Definition update_fixed_balance (actual : float) (d : Disk) : Disk :=
  let balance := get_fixed_balance d in
  let balance := (balance + (if fgt actual 2.0 then FIXED_BET else - FIXED_BET))%float in
  write_fixed balance d.

Definition reset_balance (d : Disk) : Disk :=
  fold_left (fun d f => if path_exists f d then os_remove f d else d)
            [FLAT_FILE; FIXED_FILE; RESULTS_FILE] d.

Definition save_result (prediction : string) (actual : float) (d : Disk) : Disk :=
  let correct :=
    (String.eqb prediction "Above" && fgt actual 2.0)
    || (String.eqb prediction "Under" && fle actual 2.0) in
  let result_df := load_results d in
  let result_df := result_df ++ [mkRow prediction actual correct] in
  let d := write_results result_df d in
  let d := update_flat_balance prediction actual d in
  if String.eqb prediction "Above" then update_fixed_balance actual d else d.

(** ** Logic (lines 82-94) *)

Definition normalize_input (value : float) : float :=
  if fgt value 10 then (value / 100)%float else value.

Definition predict_from_unders (data : list float) (threshold : float)
    (window : Z) (min_unders_for_above : Z) : option string * option Z :=
  if len data <? window then (None, None)
  else
    let recent := slice_from (- window) data in
    let under_count := sum_bool (map (fun x => flt x threshold) recent) in
    if under_count >=? min_unders_for_above then (Some "Above", Some under_count)
    else (Some "Under", Some under_count).


(** ** Session state and script runs *)

(** [st.session_state]: each key is absent ([None]) or bound. *)
Record Session : Type := mkSession {
  history : option (list float);
  last_prediction : option string
}.

Record World : Type := mkWorld {
  session : Session;
  disk : Disk
}.

(** A statement either returns or raises, in the world it has reached. *)
Inductive outcome (A : Type) : Type :=
| Returned (a : A) (w : World)
| Raised (e : exn) (w : World).
Arguments Returned {A} a w.
Arguments Raised {A} e w.

Definition M (A : Type) : Type := World -> outcome A.

Definition ret {A : Type} (a : A) : M A := fun w => Returned a w.

Definition bind {A B : Type} (c : M A) (k : A -> M B) : M B :=
  fun w =>
    match c w with
    | Returned a w' => k a w'
    | Raised e w' => Raised e w'
    end.

Definition raise {A : Type} (e : exn) : M A := fun w => Raised e w.

(** [try: body  except Exception: handler] *)
Definition try_except {A : Type} (body : M A) (handler : exn -> M A) : M A :=
  fun w =>
    match body w with
    | Returned a w' => Returned a w'
    | Raised e w' => handler e w'
    end.

Declare Scope monad_scope.
Delimit Scope monad_scope with monad.
Notation "x <- c ;; k" := (bind c (fun x => k))
  (at level 61, c at next level, right associativity) : monad_scope.
Notation "c ;; k" := (bind c (fun _ => k))
  (at level 61, right associativity) : monad_scope.
Local Open Scope monad_scope.

Definition world_of {A : Type} (o : outcome A) : World :=
  match o with
  | Returned _ w => w
  | Raised _ w => w
  end.

Definition returned {A : Type} (o : outcome A) : bool :=
  match o with
  | Returned _ _ => true
  | Raised _ _ => false
  end.

Definition of_result {A : Type} (r : result A) : M A :=
  match r with
  | Ok a => ret a
  | Err e => raise e
  end.

(** Reading and writing the files. *)
Definition from_disk {A : Type} (f : Disk -> A) : M A :=
  fun w => Returned (f (disk w)) w.

Definition on_disk (f : Disk -> Disk) : M unit :=
  fun w => Returned tt (mkWorld (session w) (f (disk w))).

(** [st.session_state.history], an AttributeError when the key is absent. *)
Definition get_history : M (list float) :=
  fun w =>
    match history (session w) with
    | Some h => Returned h w
    | None => Raised AttributeError w
    end.

Definition set_history (h : list float) : M unit :=
  fun w => Returned tt (mkWorld (mkSession (Some h) (last_prediction (session w))) (disk w)).

(** ["history" in st.session_state] *)
Definition has_history : M bool :=
  fun w => Returned (isSome (history (session w))) w.

(** [st.session_state.history.append(val)] *)
Definition history_append (val : float) : M unit :=
  h <- get_history ;; set_history (h ++ [val]).

Definition get_last_prediction : M (option string) :=
  fun w => Returned (last_prediction (session w)) w.

Definition set_last_prediction (p : string) : M unit :=
  fun w => Returned tt (mkWorld (mkSession (history (session w)) (Some p)) (disk w)).

(** [del st.session_state.last_prediction] *)
Definition del_last_prediction : M unit :=
  fun w => Returned tt (mkWorld (mkSession (history (session w)) None) (disk w)).

(** The widgets' values in one run of the script.  [new_val] is the typed
    text as [float(new_val)] reads it: [Some v], or [None] when [float]
    raises ValueError. *)
Record Widgets : Type := mkWidgets {
  min_unders : Z;
  uploaded : option DataFrame;
  reset_clicked : bool;
  new_val : option float;
  add_clicked : bool
}.

(** Lines 110-114: an uploaded file replaces the history. *)
Definition handle_upload (file : DataFrame) : M unit :=
  h <- of_result (load_csv file) ;;
  set_history h ;;
  h <- get_history ;;
  on_disk (save_history h).

(** Lines 118-122: the body of the "Reset all" button. *)
Definition handle_reset : M unit :=
  set_history [] ;;
  on_disk (save_history []) ;;
  on_disk reset_balance ;;
  on_disk (fun d => if path_exists HISTORY_FILE d then os_remove HISTORY_FILE d else d).

(** Lines 128-138: the body of the "Add multiplier" button. *)
Definition handle_add (new_val : option float) : M unit :=
  try_except
    (val <- match new_val with
            | Some v => ret v
            | None => raise ValueError
            end ;;
     let val := normalize_input val in
     pending <- get_last_prediction ;;
     match pending with
     | Some p => on_disk (save_result p val) ;; del_last_prediction
     | None => ret tt
     end ;;
     history_append val ;;
     h <- get_history ;;
     on_disk (save_history h))
    (fun _ => ret tt).

(** Lines 140-150: the prediction shown, and kept as pending. *)
Definition show_prediction (min_unders : Z) : M unit :=
  data <- get_history ;;
  match data with
  | [] => ret tt
  | _ :: _ =>
      let '(prediction, under_count) :=
        predict_from_unders data 2.0 WINDOW min_unders in
      match prediction with
      | Some p => if negb (String.eqb p "") then set_last_prediction p else ret tt
      | None => ret tt
      end
  end.

(** One run of the script (lines 97-153), as far as it changes the state. *)
Definition main (ui : Widgets) : M unit :=
  known <- has_history ;;
  (if known then ret tt
   else h <- from_disk load_history ;; h <- of_result h ;; set_history h) ;;
  match uploaded ui with
  | Some file => handle_upload file
  | None => ret tt
  end ;;
  (if reset_clicked ui then handle_reset else ret tt) ;;
  (if add_clicked ui then handle_add (new_val ui) else ret tt) ;;
  show_prediction (min_unders ui).

(** The world a run leaves behind, whether it returned or raised. *)
Definition run (ui : Widgets) (w : World) : World := world_of (main ui w).

Definition initial_world : World := mkWorld (mkSession None None) empty_disk.

Inductive reachable : World -> Prop :=
| reachable_initial : reachable initial_world
| reachable_run : forall ui w, reachable w -> reachable (run ui w).

(** ** Accuracy tracker (lines 155-166) *)

(** Lines 158-160: total, correct and accuracy rate of a results table. *)
Definition accuracy (results_df : list ResultRow) : Z * Z * float :=
  let total := len results_df in
  let correct := sum_bool (map correct results_df) in
  let acc := if negb (total =? 0) then int_truediv correct total else 0%float in
  (total, correct, acc).

(** The three metrics shown, [None] for "No verified predictions yet." *)
Definition accuracy_tracker (d : Disk) : option (Z * Z * float) :=
  let results_df := load_results d in
  match results_df with
  | _ :: _ => Some (accuracy results_df)
  | [] => None
  end.

(** ** Sample histories, sessions and runs *)

(** A history of 23 rounds whose last 20 hold exactly 14 values below 2.0;
    the three oldest rounds are below 2.0 as well and are not counted. *)
Definition history_14_unders : list float :=
  [1.1; 1.2; 1.3;
   1.5; 1.0; 1.99; 1.2; 1.7; 1.1; 1.3; 1.9; 1.45; 1.6;
   1.05; 1.8; 1.33; 1.21; 2.0; 2.5; 3.1; 10; 2.01; 7.7]%float.

(** A session with 20 rounds seen and "Above" pending, over an empty disk. *)
Definition world_pending_above : World :=
  mkWorld (mkSession (Some (skipn 3 history_14_unders)) (Some "Above")) empty_disk.

(** A session that has seen three rounds and has nothing pending. *)
Definition world_idle : World :=
  mkWorld (mkSession (Some [1.5; 2.5; 1.2]%float) None)
          (save_result "Above" 2.5 (save_history [1.5; 2.5; 1.2]%float empty_disk)).

(** The state machine is idle on a short history: nothing is pending while
    the history holds fewer than [WINDOW] rounds. *)
Definition idle_when_short (w : World) : Prop :=
  forall h, history (session w) = Some h ->
            (List.length h < 20)%nat -> last_prediction (session w) = None.

(** Runs of the script: an upload of 2 rounds and a click on the reset
    button. *)
Definition ui_upload_2 : Widgets :=
  mkWidgets 14 (Some [("multiplier", [1.5; 2.5]%float)]) false None false.

Definition ui_reset : Widgets := mkWidgets 14 None true None false.

(** A value typed in, followed by a click on "Add multiplier". *)
Definition ui_add (v : float) : Widgets := mkWidgets 14 None false (Some v) true.

(** Successive runs of the script. *)
Definition runs (uis : list Widgets) (w : World) : World :=
  fold_left (fun w ui => run ui w) uis w.

(** A fresh session in which 20 rounds are added by hand, one per run. *)
Definition session_20_rounds : World :=
  runs (map ui_add (skipn 3 history_14_unders)) initial_world.

(** Nothing is pending while the history is short or not loaded yet. *)
Definition idle_inv (w : World) : Prop :=
  match history (session w) with
  | Some h => (List.length h < 20)%nat -> last_prediction (session w) = None
  | None => last_prediction (session w) = None
  end.

(** ** Invariants of the persisted state and of the session *)

(** New browser sessions start with an empty session state over the files
    the earlier sessions left. *)
Inductive reachable_sessions : World -> Prop :=
| sessions_initial : reachable_sessions initial_world
| sessions_run : forall ui w, reachable_sessions w -> reachable_sessions (run ui w)
| sessions_new : forall w,
    reachable_sessions w -> reachable_sessions (mkWorld (mkSession None None) (disk w)).

(** A statement keeps [P], whether it returns or raises. *)
Definition preserves {A : Type} (P : World -> Prop) (c : M A) : Prop :=
  forall w, P w -> P (world_of (c w)).

Definition label_ok (p : string) : Prop := p = "Above" \/ p = "Under".

(** A results row as a settlement writes it. *)
Definition row_ok (r : ResultRow) : Prop :=
  label_ok (prediction r)
  /\ (correct r = true <->
      (prediction r = "Above" /\ PrimFloat.ltb 2.0 (actual r) = true)
      \/ (prediction r = "Under" /\ PrimFloat.leb (actual r) 2.0 = true)).

(** The balances obtained by replaying the results from 0.1: each "Above"
    row stakes 0.01 (flat) or 0.02 (fixed) on its actual value. *)
Definition replay_flat (rows : list ResultRow) : float :=
  fold_left
    (fun b r =>
       if String.eqb (prediction r) "Above"
       then (b + (if PrimFloat.ltb 2.0 (actual r) then 0.01 else -0.01))%float
       else b)
    rows 0.1%float.

Definition replay_fixed (rows : list ResultRow) : float :=
  fold_left
    (fun b r =>
       if String.eqb (prediction r) "Above"
       then (b + (if PrimFloat.ltb 2.0 (actual r) then 0.02 else -0.02))%float
       else b)
    rows 0.1%float.

(** history.csv, when present, is the one-column table [save_history] writes. *)
Definition history_file_ok (d : Disk) : Prop :=
  match history_csv d with
  | Some df => exists data, df = [("multiplier", data)]
  | None => True
  end.

Definition disk_ok (d : Disk) : Prop :=
  history_file_ok d
  /\ Forall row_ok (load_results d)
  /\ get_flat_balance d = replay_flat (load_results d)
  /\ get_fixed_balance d = replay_fixed (load_results d).

Definition pending_ok (w : World) : Prop :=
  forall p, last_prediction (session w) = Some p -> label_ok p.

(** The history of the session is the one on disk. *)
Definition in_sync (w : World) : Prop :=
  forall h, history (session w) = Some h -> load_history (disk w) = Ok h.

Definition world_ok (w : World) : Prop :=
  pending_ok w /\ in_sync w /\ disk_ok (disk w).

(** The run of the script up to the prediction block (lines 105-138). *)
Definition handlers (ui : Widgets) : M unit :=
  known <- has_history ;;
  (if known then ret tt
   else h <- from_disk load_history ;; h <- of_result h ;; set_history h) ;;
  match uploaded ui with
  | Some file => handle_upload file
  | None => ret tt
  end ;;
  (if reset_clicked ui then handle_reset else ret tt) ;;
  (if add_clicked ui then handle_add (new_val ui) else ret tt).

(** A run in which no file is uploaded and the reset button is not clicked. *)
Definition manual_only (ui : Widgets) : Prop :=
  uploaded ui = None /\ reset_clicked ui = false.

(** No settlement has written to the disk. *)
Definition untouched (d : Disk) : Prop :=
  results_csv d = None /\ sol_balance_txt d = None /\ fixed_balance_txt d = None.


(** The entries below [threshold], counted as the predictor counts them. *)
Definition unders (threshold : float) (l : list float) : Z :=
  len (filter (fun x => flt x threshold) l).

(** * Properties *)

(** ** Normalizer *)

(** C4: [normalize_input] divides by 100 exactly the values that are
    greater than 10 and returns every other value (10 itself, zero, the
    negative ones) unchanged; 187 gives 1.87, 1.87 stays, 10 stays and
    10.01 gives 0.1001. *)
Theorem normalize_input_spec :
  (forall value, fgt value 10 = true -> normalize_input value = (value / 100)%float)
  /\ (forall value, fgt value 10 = false -> normalize_input value = value)
  /\ normalize_input 187 = 1.87%float
  /\ normalize_input 1.87 = 1.87%float
  /\ normalize_input 10 = 10%float
  /\ normalize_input 10.01 = 0.1001%float
  /\ normalize_input 0 = 0%float
  /\ normalize_input (-3) = (-3)%float.
Proof.
  repeat split; try reflexivity;
    intros value Hcmp; unfold normalize_input; rewrite Hcmp; reflexivity.
Qed.

Lemma normalize_input_spec_witness :
  normalize_input 250 = (250 / 100)%float /\ normalize_input 2.5 = 2.5%float.
Proof.
  split.
  - exact (proj1 normalize_input_spec 250%float eq_refl).
  - exact (proj1 (proj2 normalize_input_spec) 2.5%float eq_refl).
Defined.

(** ** Predictor *)

Lemma sum_bool_from (mask : list bool) (acc : Z) :
  fold_left (fun a (b : bool) => a + (if b then 1 else 0)) mask acc
  = acc + len (filter (fun b => b) mask).
Proof.
  revert acc; induction mask as [|b mask IH]; intros acc; unfold len in *; cbn.
  - lia.
  - rewrite IH. destruct b; cbn [List.length]; lia.
Qed.

Lemma sum_bool_count (mask : list bool) :
  sum_bool mask = len (filter (fun b => b) mask).
Proof. unfold sum_bool. rewrite sum_bool_from. lia. Qed.

Lemma filter_map_mask {A : Type} (f : A -> bool) (l : list A) :
  List.length (filter (fun b => b) (map f l)) = List.length (filter f l).
Proof.
  induction l as [|x l IH]; cbn; [reflexivity|].
  destruct (f x); cbn; rewrite IH; reflexivity.
Qed.

Lemma sum_bool_mask {A : Type} (f : A -> bool) (l : list A) :
  sum_bool (map f l) = len (filter f l).
Proof. rewrite sum_bool_count. unfold len. now rewrite filter_map_mask. Qed.

(** [l[-n:]] on a list of at least [n > 0] entries is its last [n] entries. *)
Lemma slice_from_last {A : Type} (n : nat) (l : list A) :
  (0 < n <= List.length l)%nat ->
  slice_from (- Z.of_nat n) l = skipn (List.length l - n) l.
Proof.
  intros Hn. unfold slice_from, len.
  destruct (Z.ltb_spec (- Z.of_nat n) 0) as [_|Hge]; [|lia].
  f_equal. lia.
Qed.

(** The first branch of the predictor, for any window. *)
Lemma predict_insufficient (data : list float) (threshold : float) (window min_unders : Z) :
  len data < window ->
  predict_from_unders data threshold window min_unders = (None, None).
Proof.
  intros Hshort. unfold predict_from_unders.
  destruct (Z.ltb_spec (len data) window) as [_|Hge]; [reflexivity|lia].
Qed.

(** On a short history no prediction is formed: the world is left alone. *)
Lemma show_prediction_short (m : Z) (w : World) (h : list float) :
  history (session w) = Some h -> (List.length h < 20)%nat ->
  show_prediction m w = Returned tt w.
Proof.
  intros Hh Hshort. destruct w as [[hist lp] d]; cbn in Hh; subst.
  unfold show_prediction, bind, get_history. cbn [session history].
  destruct h as [|x l]; [reflexivity|].
  rewrite predict_insufficient by (unfold WINDOW, len; lia). reflexivity.
Qed.

(** C6: on every history of fewer than 20 entries the predictor returns the
    pair (None, None), whatever the entries, the threshold and the number
    of unders asked for; nothing is raised, and the prediction block of the
    script returns and leaves the session and the files as they were. *)
Theorem predict_from_unders_short (data : list float) (threshold : float) (min_unders : Z) :
  (List.length data < 20)%nat ->
  predict_from_unders data threshold WINDOW min_unders = (None, None)
  /\ (forall w, history (session w) = Some data ->
                show_prediction min_unders w = Returned tt w).
Proof.
  intros Hshort. split.
  - apply predict_insufficient. unfold WINDOW, len. lia.
  - intros w Hw. exact (show_prediction_short min_unders w data Hw Hshort).
Qed.

Lemma predict_from_unders_short_witness :
  (List.length [1.5; 2.5; nan; 0.3]%float < 20)%nat
  /\ predict_from_unders [1.5; 2.5; nan; 0.3]%float 2.0 WINDOW 14 = (None, None).
Proof.
  split; [cbn; lia|].
  apply (predict_from_unders_short [1.5; 2.5; nan; 0.3]%float 2.0 14). cbn; lia.
Defined.

(** C1: on a history of at least 20 entries the predictor looks at the last
    20 entries only, counts those strictly below 2.0, and returns "Above"
    with that count when the count reaches [min_unders], "Under" with the
    count otherwise; so 14 unders with [min_unders = 14] give ("Above", 14)
    and 13 unders give ("Under", 13). *)
Theorem predict_from_unders_window (data : list float) (min_unders : Z) :
  (20 <= List.length data)%nat ->
  let recent := skipn (List.length data - 20) data in
  let underCount := len (filter (fun x => flt x 2.0) recent) in
  List.length recent = 20%nat
  /\ data = firstn (List.length data - 20) data ++ recent
  /\ predict_from_unders data 2.0 WINDOW min_unders
     = (Some (if min_unders <=? underCount then "Above" else "Under"), Some underCount)
  /\ (underCount = 14 ->
      predict_from_unders data 2.0 WINDOW 14 = (Some "Above", Some 14))
  /\ (underCount = 13 ->
      predict_from_unders data 2.0 WINDOW 14 = (Some "Under", Some 13)).
Proof.
  intros Hlen recent underCount.
  assert (Hpred : forall m, predict_from_unders data 2.0 WINDOW m
            = (Some (if m <=? underCount then "Above" else "Under"), Some underCount)).
  { intros m. unfold predict_from_unders, WINDOW, len.
    destruct (Z.ltb_spec (Z.of_nat (List.length data)) 20) as [Hlt|_]; [lia|].
    change (slice_from (Z.opp 20) data) with (slice_from (- Z.of_nat 20%nat) data).
    rewrite slice_from_last by lia. rewrite sum_bool_mask.
    fold recent. fold underCount.
    rewrite Z.geb_leb. destruct (m <=? underCount); reflexivity. }
  repeat split.
  - unfold recent. rewrite length_skipn. lia.
  - unfold recent. symmetry. apply firstn_skipn.
  - apply Hpred.
  - intros H14. rewrite Hpred, H14. reflexivity.
  - intros H13. rewrite Hpred, H13. reflexivity.
Qed.

Lemma predict_from_unders_window_witness :
  (20 <= List.length history_14_unders)%nat
  /\ predict_from_unders history_14_unders 2.0 WINDOW 14 = (Some "Above", Some 14).
Proof.
  split; [cbn; lia|].
  apply (predict_from_unders_window history_14_unders 14); [cbn; lia | reflexivity].
Defined.

Example predict_13_unders :
  predict_from_unders (2.2 :: skipn 4 history_14_unders)%float 2.0 WINDOW 14
  = (Some "Under", Some 13).
Proof. reflexivity. Qed.

(** ** Settlement *)

Lemma save_result_unfold (p : string) (a : float) (d : Disk) :
  save_result p a d =
  let flag := (String.eqb p "Above" && fgt a 2.0) || (String.eqb p "Under" && fle a 2.0) in
  let rows := load_results d ++ [mkRow p a flag] in
  if String.eqb p "Above" then
    mkDisk (history_csv d) (Some rows)
      (Some (get_flat_balance d + (if fgt a 2.0 then FLAT_BET else - FLAT_BET))%float)
      (Some (get_fixed_balance d + (if fgt a 2.0 then FIXED_BET else - FIXED_BET))%float)
  else
    mkDisk (history_csv d) (Some rows) (sol_balance_txt d) (fixed_balance_txt d).
Proof.
  unfold save_result, update_flat_balance, update_fixed_balance.
  destruct (String.eqb p "Above"); reflexivity.
Qed.

(** The "Add multiplier" button with a prediction pending: the prediction
    is settled against the normalized value and the slot is cleared. *)
Lemma handle_add_pending (w : World) (p : string) (h : list float) (v : float) :
  last_prediction (session w) = Some p ->
  history (session w) = Some h ->
  handle_add (Some v) w =
  Returned tt
    (mkWorld (mkSession (Some (h ++ [normalize_input v])) None)
             (save_history (h ++ [normalize_input v])
                (save_result p (normalize_input v) (disk w)))).
Proof.
  intros Hp Hh. destruct w as [[hist lp] d]; cbn in Hp, Hh; subst.
  reflexivity.
Qed.

(** The same button with no prediction pending. *)
Lemma handle_add_idle (w : World) (h : list float) (v : float) :
  last_prediction (session w) = None ->
  history (session w) = Some h ->
  handle_add (Some v) w =
  Returned tt
    (mkWorld (mkSession (Some (h ++ [normalize_input v])) None)
             (save_history (h ++ [normalize_input v]) (disk w))).
Proof.
  intros Hp Hh. destruct w as [[hist lp] d]; cbn in Hp, Hh; subst.
  reflexivity.
Qed.

(** Text that [float] rejects: "Invalid input", and nothing changes. *)
Lemma handle_add_invalid (w : World) : handle_add None w = Returned tt w.
Proof. reflexivity. Qed.

(** C2: settling prediction [p] against [a] appends the row (p, a, flag) to
    the results, where flag holds exactly when p is "Above" and a > 2.0, or
    p is "Under" and a <= 2.0; at a = 2.0 "Under" is correct and "Above"
    is not.  The "Add multiplier" button settles the pending prediction in
    this way against the normalized value. *)
Theorem save_result_correct_flag :
  (forall p a d,
     exists flag,
       load_results (save_result p a d) = load_results d ++ [mkRow p a flag]
       /\ (flag = true <->
           (p = "Above" /\ PrimFloat.ltb 2.0 a = true)
           \/ (p = "Under" /\ PrimFloat.leb a 2.0 = true)))
  /\ (forall d, load_results (save_result "Under" 2.0 d)
                = load_results d ++ [mkRow "Under" 2.0 true])
  /\ (forall d, load_results (save_result "Above" 2.0 d)
                = load_results d ++ [mkRow "Above" 2.0 false])
  /\ (forall w p h v,
        last_prediction (session w) = Some p ->
        history (session w) = Some h ->
        exists flag,
          load_results (disk (world_of (handle_add (Some v) w)))
          = load_results (disk w) ++ [mkRow p (normalize_input v) flag]
          /\ (flag = true <->
              (p = "Above" /\ PrimFloat.ltb 2.0 (normalize_input v) = true)
              \/ (p = "Under" /\ PrimFloat.leb (normalize_input v) 2.0 = true))).
Proof.
  assert (Hrow : forall p a d,
     exists flag,
       load_results (save_result p a d) = load_results d ++ [mkRow p a flag]
       /\ (flag = true <->
           (p = "Above" /\ PrimFloat.ltb 2.0 a = true)
           \/ (p = "Under" /\ PrimFloat.leb a 2.0 = true))).
  { intros p a d. rewrite save_result_unfold. cbv zeta.
    exists ((String.eqb p "Above" && fgt a 2.0) || (String.eqb p "Under" && fle a 2.0)).
    split.
    - destruct (String.eqb p "Above"); reflexivity.
    - unfold fgt, fle. rewrite orb_true_iff, !andb_true_iff, !String.eqb_eq.
      reflexivity. }
  split; [exact Hrow|].
  split; [intros d; rewrite save_result_unfold; reflexivity|].
  split; [intros d; rewrite save_result_unfold; reflexivity|].
  intros w p h v Hp Hh. rewrite (handle_add_pending w p h v Hp Hh). cbn [world_of disk].
  destruct (Hrow p (normalize_input v) (disk w)) as [flag [Hrows Hflag]].
  exists flag. split; [|exact Hflag].
  rewrite <- Hrows. reflexivity.
Qed.

Lemma save_result_correct_flag_witness :
  exists flag,
    load_results (disk (world_of (handle_add (Some 250%float) world_pending_above)))
    = load_results (disk world_pending_above) ++ [mkRow "Above" 2.5 flag]
    /\ (flag = true <->
        ("Above" = "Above" /\ PrimFloat.ltb 2.0 (normalize_input 250) = true)
        \/ ("Above" = "Under" /\ PrimFloat.leb (normalize_input 250) 2.0 = true)).
Proof.
  exact (proj2 (proj2 (proj2 save_result_correct_flag))
           world_pending_above "Above" (skipn 3 history_14_unders) 250%float
           eq_refl eq_refl).
Defined.

(** ** Balance ledgers *)

(** C3: settling an "Above" prediction adds 0.01 to the flat balance and
    0.02 to the fixed balance when the actual value is above 2.0, and adds
    -0.01 and -0.02 otherwise; settling an "Under" prediction leaves both
    balance files as they were.  The same holds for the settlement done by
    the "Add multiplier" button. *)
Theorem save_result_balances :
  (forall a d,
     get_flat_balance (save_result "Above" a d)
     = (get_flat_balance d + (if PrimFloat.ltb 2.0 a then 0.01 else -0.01))%float
     /\ get_fixed_balance (save_result "Above" a d)
        = (get_fixed_balance d + (if PrimFloat.ltb 2.0 a then 0.02 else -0.02))%float)
  /\ (forall a d,
        sol_balance_txt (save_result "Under" a d) = sol_balance_txt d
        /\ fixed_balance_txt (save_result "Under" a d) = fixed_balance_txt d
        /\ get_flat_balance (save_result "Under" a d) = get_flat_balance d
        /\ get_fixed_balance (save_result "Under" a d) = get_fixed_balance d)
  /\ (forall w h v,
        last_prediction (session w) = Some "Above" ->
        history (session w) = Some h ->
        let a := normalize_input v in
        let d' := disk (world_of (handle_add (Some v) w)) in
        get_flat_balance d'
        = (get_flat_balance (disk w) + (if PrimFloat.ltb 2.0 a then 0.01 else -0.01))%float
        /\ get_fixed_balance d'
           = (get_fixed_balance (disk w) + (if PrimFloat.ltb 2.0 a then 0.02 else -0.02))%float)
  /\ (forall w h v,
        last_prediction (session w) = Some "Under" ->
        history (session w) = Some h ->
        let d' := disk (world_of (handle_add (Some v) w)) in
        get_flat_balance d' = get_flat_balance (disk w)
        /\ get_fixed_balance d' = get_fixed_balance (disk w)).
Proof.
  assert (Habove : forall a d,
     get_flat_balance (save_result "Above" a d)
     = (get_flat_balance d + (if PrimFloat.ltb 2.0 a then 0.01 else -0.01))%float
     /\ get_fixed_balance (save_result "Above" a d)
        = (get_fixed_balance d + (if PrimFloat.ltb 2.0 a then 0.02 else -0.02))%float).
  { intros a d. rewrite save_result_unfold. cbn. unfold fgt.
    destruct (PrimFloat.ltb 2.0 a); split; reflexivity. }
  assert (Hunder : forall a d,
        sol_balance_txt (save_result "Under" a d) = sol_balance_txt d
        /\ fixed_balance_txt (save_result "Under" a d) = fixed_balance_txt d
        /\ get_flat_balance (save_result "Under" a d) = get_flat_balance d
        /\ get_fixed_balance (save_result "Under" a d) = get_fixed_balance d).
  { intros a d. rewrite save_result_unfold. cbn. repeat split; reflexivity. }
  split; [exact Habove|]. split; [exact Hunder|]. split.
  - intros w h v Hp Hh a d'. subst d'.
    rewrite (handle_add_pending w "Above" h v Hp Hh). cbn [world_of disk].
    exact (Habove a (disk w)).
  - intros w h v Hp Hh d'. subst d'.
    rewrite (handle_add_pending w "Under" h v Hp Hh). cbn [world_of disk].
    destruct (Hunder (normalize_input v) (disk w)) as (_ & _ & Hflat & Hfixed).
    split; [exact Hflat | exact Hfixed].
Qed.

Lemma save_result_balances_witness :
  let d' := disk (world_of (handle_add (Some 250%float) world_pending_above)) in
  get_flat_balance d' = (0.1 + 0.01)%float
  /\ get_fixed_balance d' = (0.1 + 0.02)%float.
Proof.
  exact (proj1 (proj2 (proj2 save_result_balances))
           world_pending_above (skipn 3 history_14_unders) 250%float
           eq_refl eq_refl).
Defined.

Example settle_above_win :
  get_flat_balance (save_result "Above" 2.5 empty_disk) = 0.11%float
  /\ get_fixed_balance (save_result "Above" 2.5 empty_disk) = (0.1 + 0.02)%float
  /\ load_results (save_result "Above" 2.5 empty_disk) = [mkRow "Above" 2.5 true].
Proof. repeat split. Qed.

Example settle_above_loss :
  get_flat_balance (save_result "Above" 1.5 empty_disk) = (0.1 - 0.01)%float
  /\ get_fixed_balance (save_result "Above" 1.5 empty_disk) = (0.1 - 0.02)%float
  /\ load_results (save_result "Above" 1.5 empty_disk) = [mkRow "Above" 1.5 false].
Proof. repeat split. Qed.

Example settle_under :
  save_result "Under" 1.5 empty_disk = mkDisk None (Some [mkRow "Under" 1.5 true]) None None
  /\ save_result "Under" 2.5 empty_disk = mkDisk None (Some [mkRow "Under" 2.5 false]) None None.
Proof. split; reflexivity. Qed.

(** ** Reset and missing files *)

Lemma reset_balance_removes (d : Disk) :
  reset_balance d = mkDisk (history_csv d) None None None.
Proof.
  destruct d as [h [r|] [fl|] [fx|]]; reflexivity.
Qed.

Lemma handle_reset_run (w : World) :
  handle_reset w =
  Returned tt (mkWorld (mkSession (Some []) (last_prediction (session w))) empty_disk).
Proof.
  destruct w as [[h lp] d]. unfold handle_reset, bind, set_history, on_disk.
  cbn [session disk last_prediction]. rewrite reset_balance_removes. reflexivity.
Qed.

(** C7: after the body of the reset button has run, both balances read
    0.1, the history in the session and the history on disk read as the
    empty list and the results read as empty; a balance, history or results
    file that is missing reads as 0.1 or as empty, with no exception. *)
Theorem reset_restores_defaults :
  (forall w,
     exists w',
       handle_reset w = Returned tt w'
       /\ get_flat_balance (disk w') = 0.1%float
       /\ get_fixed_balance (disk w') = 0.1%float
       /\ history (session w') = Some []
       /\ load_history (disk w') = Ok []
       /\ load_results (disk w') = []
       /\ accuracy_tracker (disk w') = None)
  /\ (forall d, path_exists FLAT_FILE d = false -> get_flat_balance d = 0.1%float)
  /\ (forall d, path_exists FIXED_FILE d = false -> get_fixed_balance d = 0.1%float)
  /\ (forall d, path_exists HISTORY_FILE d = false -> load_history d = Ok [])
  /\ (forall d, path_exists RESULTS_FILE d = false -> load_results d = []).
Proof.
  split.
  { intros w. eexists. split; [apply handle_reset_run|].
    cbn. repeat split; reflexivity. }
  repeat split; intros d Hmissing; cbn in Hmissing.
  - unfold get_flat_balance. destruct (sol_balance_txt d); [discriminate|reflexivity].
  - unfold get_fixed_balance. destruct (fixed_balance_txt d); [discriminate|reflexivity].
  - unfold load_history. destruct (history_csv d); [discriminate|reflexivity].
  - unfold load_results. destruct (results_csv d); [discriminate|reflexivity].
Qed.

Lemma reset_restores_defaults_witness :
  get_flat_balance (save_result "Under" 1.5 empty_disk) = 0.1%float.
Proof.
  exact (proj1 (proj2 reset_restores_defaults) (save_result "Under" 1.5 empty_disk) eq_refl).
Defined.

(** ** Accuracy tracker *)

(** C8: on every results table the tracker computes total as the number of
    rows, correct as the number of rows whose flag is true (never more than
    total), and the rate as correct / total, except that the rate is 0 and
    no division is made when total is 0; the metrics are shown for every
    non-empty table. *)
Theorem accuracy_spec (results_df : list ResultRow) :
  let total := len results_df in
  let n_correct := len (filter correct results_df) in
  accuracy results_df
  = (total, n_correct,
     if total =? 0 then 0%float
     else (PrimFloat.of_uint63 (Uint63.of_Z n_correct)
           / PrimFloat.of_uint63 (Uint63.of_Z total))%float)
  /\ 0 <= n_correct <= total
  /\ accuracy [] = (0, 0, 0%float)
  /\ (forall d, load_results d = results_df ->
      accuracy_tracker d = if total =? 0 then None else Some (accuracy results_df)).
Proof.
  intros total n_correct. repeat split.
  - unfold accuracy. rewrite sum_bool_mask. fold total. fold n_correct.
    destruct (total =? 0); reflexivity.
  - unfold n_correct, len. lia.
  - unfold n_correct, total, len. apply inj_le. apply filter_length_le.
  - intros d Hd. unfold accuracy_tracker. rewrite Hd. unfold total.
    destruct results_df; reflexivity.
Qed.

Lemma accuracy_spec_witness :
  accuracy_tracker (save_result "Under" 2.5 (save_result "Above" 2.5 empty_disk))
  = Some (2, 1, 0.5%float).
Proof.
  exact (proj2 (proj2 (proj2 (accuracy_spec [mkRow "Above" 2.5 true; mkRow "Under" 2.5 false])))
           (save_result "Under" 2.5 (save_result "Above" 2.5 empty_disk)) eq_refl).
Defined.

(** ** Runs of the script *)

(** Showing the prediction touches neither the files nor the history. *)
Lemma show_prediction_frame (m : Z) (w : World) :
  disk (world_of (show_prediction m w)) = disk w
  /\ history (session (world_of (show_prediction m w))) = history (session w).
Proof.
  destruct w as [[[[|x l]|] lp] d]; cbn; try (split; reflexivity).
  unfold show_prediction, bind, get_history. cbn [session history].
  destruct (predict_from_unders (x :: l) 2.0 WINDOW m) as [[p|] uc];
    [destruct (negb (String.eqb p ""))|]; split; reflexivity.
Qed.

(** A run in which only the "Add multiplier" button is clicked, on valid
    text and with no prediction pending. *)
Lemma main_add_idle (ui : Widgets) (w : World) (h : list float) (v : float) :
  uploaded ui = None -> reset_clicked ui = false ->
  add_clicked ui = true -> new_val ui = Some v ->
  last_prediction (session w) = None ->
  history (session w) = Some h ->
  main ui w =
  show_prediction (min_unders ui)
    (mkWorld (mkSession (Some (h ++ [normalize_input v])) None)
             (save_history (h ++ [normalize_input v]) (disk w))).
Proof.
  intros Hup Hreset Hadd Hval Hp Hh.
  destruct w as [[hist lp] d], ui as [m up rc nv ac].
  cbn in Hup, Hreset, Hadd, Hval, Hp, Hh; subst.
  reflexivity.
Qed.

(** C9: when the "Add multiplier" button runs on a valid value while no
    prediction is pending, the results file and both balance files are left
    as they were, and the normalized value is appended to the history, in
    the session and on disk; the same holds for the whole run of the
    script in which that button is clicked. *)
Theorem add_without_pending_frame (w : World) (h : list float) (v : float) :
  last_prediction (session w) = None ->
  history (session w) = Some h ->
  let unchanged (w' : World) :=
    results_csv (disk w') = results_csv (disk w)
    /\ sol_balance_txt (disk w') = sol_balance_txt (disk w)
    /\ fixed_balance_txt (disk w') = fixed_balance_txt (disk w)
    /\ history (session w') = Some (h ++ [normalize_input v])
    /\ load_history (disk w') = Ok (h ++ [normalize_input v]) in
  (returned (handle_add (Some v) w) = true
   /\ unchanged (world_of (handle_add (Some v) w)))
  /\ (forall ui,
        uploaded ui = None -> reset_clicked ui = false ->
        add_clicked ui = true -> new_val ui = Some v ->
        returned (main ui w) = true /\ unchanged (run ui w)).
Proof.
  intros Hp Hh unchanged. split.
  - rewrite (handle_add_idle w h v Hp Hh). cbn. unfold unchanged. cbn.
    repeat split; reflexivity.
  - intros ui Hup Hreset Hadd Hval. unfold run.
    rewrite (main_add_idle ui w h v Hup Hreset Hadd Hval Hp Hh).
    set (w1 := mkWorld _ _).
    destruct (show_prediction_frame (min_unders ui) w1) as [Hdisk Hhist].
    split.
    + unfold show_prediction, bind, get_history, w1. cbn [session history].
      destruct (h ++ [normalize_input v]) as [|x l]; [reflexivity|].
      destruct (predict_from_unders (x :: l) 2.0 WINDOW (min_unders ui)) as [[p|] uc];
        [destruct (negb (String.eqb p ""))|]; reflexivity.
    + unfold unchanged. rewrite Hdisk, Hhist. unfold w1. cbn.
      repeat split; reflexivity.
Qed.

Lemma add_without_pending_frame_witness :
  results_csv (disk (run (mkWidgets 14 None false (Some 187%float) true) world_idle))
  = Some [mkRow "Above" 2.5 true]
  /\ history (session (run (mkWidgets 14 None false (Some 187%float) true) world_idle))
     = Some [1.5; 2.5; 1.2; 1.87]%float.
Proof.
  pose proof (proj2 (add_without_pending_frame world_idle [1.5; 2.5; 1.2]%float 187%float
                       eq_refl eq_refl)
                (mkWidgets 14 None false (Some 187%float) true)
                eq_refl eq_refl eq_refl eq_refl) as [_ (Hres & _ & _ & Hhist & _)].
  split; [exact Hres | exact Hhist].
Defined.

(** ** The pending prediction across a reset *)

Lemma reachable_runs (uis : list Widgets) (w : World) :
  reachable w -> reachable (runs uis w).
Proof.
  revert w; induction uis as [|ui uis IH]; intros w Hw; cbn; [exact Hw|].
  apply IH. constructor. exact Hw.
Qed.

Lemma show_prediction_idle (m : Z) (w : World) :
  idle_inv w -> idle_inv (world_of (show_prediction m w)).
Proof.
  intros Hw. destruct (history (session w)) as [h|] eqn:Hh.
  - unfold idle_inv.
    rewrite (proj2 (show_prediction_frame m w)), Hh. intros Hshort.
    rewrite (show_prediction_short m w h Hh Hshort). cbn [world_of].
    unfold idle_inv in Hw. rewrite Hh in Hw. exact (Hw Hshort).
  - destruct w as [[hist lp] d]; cbn in Hh; subst. exact Hw.
Qed.

(** As long as the history only grows by values added by hand (no upload,
    no reset), nothing is pending while it is shorter than 20 rounds. *)
Lemma idle_inv_run (ui : Widgets) (w : World) :
  uploaded ui = None -> reset_clicked ui = false ->
  idle_inv w -> idle_inv (run ui w).
Proof.
  intros Hup Hreset Hw.
  destruct ui as [m up rc nv ac]; cbn in Hup, Hreset; subst.
  destruct w as [[[h|] lp] d]; unfold idle_inv in Hw; cbn in Hw.
  - destruct ac; [destruct nv as [v|]; [destruct lp as [p|]|]|];
      apply show_prediction_idle; unfold idle_inv; cbn; try exact Hw; reflexivity.
  - subst lp. unfold run, main, bind, has_history, from_disk, of_result.
    cbn [session history isSome disk].
    destruct (load_history d) as [h0|e]; [|reflexivity].
    destruct ac; [destruct nv as [v|]|];
      apply show_prediction_idle; unfold idle_inv; cbn; reflexivity.
Qed.

Lemma idle_inv_short (w : World) : idle_inv w -> idle_when_short w.
Proof.
  intros Hw h Hh Hshort. unfold idle_inv in Hw. rewrite Hh in Hw. exact (Hw Hshort).
Qed.

(** C5: the pending prediction is cleared by a settlement only.  A session
    that has added 20 rounds by hand has "Above" pending; the reset button
    then empties the history and removes the files but keeps "Above"
    pending, so the machine is not idle on a history shorter than 20, and
    the next value added is settled against the stale prediction: a result
    row is written and both balances move.  An upload of a shorter history
    keeps the stale prediction in the same way. *)
Theorem reset_keeps_pending_prediction :
  let w1 := session_20_rounds in
  let w2 := run ui_reset w1 in
  let w3 := run (ui_add 3.0) w2 in
  let w2' := run ui_upload_2 w1 in
  history (session w1) = Some (skipn 3 history_14_unders)
  /\ last_prediction (session w1) = Some "Above"
  /\ load_results (disk w1) = []
  /\ reachable w2
  /\ history (session w2) = Some []
  /\ disk w2 = empty_disk
  /\ last_prediction (session w2) = Some "Above"
  /\ load_results (disk w3) = [mkRow "Above" 3.0 true]
  /\ get_flat_balance (disk w3) = 0.11%float
  /\ get_fixed_balance (disk w3) = (0.1 + 0.02)%float
  /\ reachable w2'
  /\ history (session w2') = Some [1.5; 2.5]%float
  /\ last_prediction (session w2') = Some "Above"
  /\ ~ (forall w, reachable w -> idle_when_short w).
Proof.
  intros w1 w2 w3 w2'.
  assert (Hr1 : reachable w1) by (apply reachable_runs; constructor).
  assert (Hr2 : reachable w2) by (constructor; exact Hr1).
  assert (Hstale : last_prediction (session w2) = Some "Above") by (vm_compute; reflexivity).
  repeat split; try (vm_compute; reflexivity); try (constructor; exact Hr1).
  intros Hinv.
  assert (Hidle : last_prediction (session w2) = None).
  { apply (Hinv w2 Hr2 []); [vm_compute; reflexivity | cbn; lia]. }
  rewrite Hstale in Hidle. discriminate Hidle.
Qed.

(** * Further properties of the code *)

(** ** The predictor on any window *)

Lemma unders_bounds (threshold : float) (l : list float) :
  0 <= unders threshold l <= len l.
Proof.
  unfold unders, len. split; [lia|]. apply inj_le. apply filter_length_le.
Qed.

(** The second branch of the predictor: the label follows the count of the
    slice. *)
Lemma predict_counted (data : list float) (threshold : float) (window m : Z) :
  window <= len data ->
  predict_from_unders data threshold window m
  = (Some (if m <=? unders threshold (slice_from (- window) data)
           then "Above" else "Under"),
     Some (unders threshold (slice_from (- window) data))).
Proof.
  intros Hw. unfold predict_from_unders.
  destruct (Z.ltb_spec (len data) window) as [Hlt|_]; [lia|].
  rewrite sum_bool_mask. fold (unders threshold (slice_from (- window) data)).
  rewrite Z.geb_leb. destruct (m <=? _); reflexivity.
Qed.

Lemma slice_from_positive_window {A : Type} (window : Z) (l : list A) :
  0 < window <= len l ->
  slice_from (- window) l = skipn (List.length l - Z.to_nat window) l.
Proof.
  intros Hw. unfold len in Hw.
  rewrite <- (slice_from_last (Z.to_nat window) l) by lia.
  rewrite Z2Nat.id by lia. reflexivity.
Qed.

Lemma slice_from_nonpositive_window {A : Type} (window : Z) (l : list A) :
  window <= 0 ->
  slice_from (- window) l = skipn (Z.to_nat (- window)) l.
Proof.
  intros Hw. unfold slice_from.
  destruct (Z.ltb_spec (- window) 0) as [Hneg|_]; [lia|].
  destruct (Z.le_ge_cases (- window) (len l)) as [Hin|Hout].
  - rewrite Z.min_l by exact Hin. reflexivity.
  - rewrite Z.min_r by exact Hout. unfold len in *.
    rewrite Nat2Z.id. rewrite !skipn_all2; [reflexivity| lia | lia].
Qed.

Lemma unders_slice_le_window (threshold : float) (window : Z) (data : list float) :
  0 < window <= len data ->
  unders threshold (slice_from (- window) data) <= window.
Proof.
  intros Hw. rewrite slice_from_positive_window by exact Hw.
  pose proof (unders_bounds threshold
                (skipn (List.length data - Z.to_nat window) data)) as [_ Hhi].
  unfold len in Hhi, Hw. rewrite length_skipn in Hhi. lia.
Qed.

(** X1: for every threshold and every window with 0 < window <= len(data),
    the predictor counts the entries below the threshold among the last
    [window] entries, which are exactly [window] many, and answers "Above"
    when the count is at least [min_unders], "Under" otherwise. *)
Theorem predict_from_unders_any_window
    (data : list float) (threshold : float) (window min_unders : Z) :
  0 < window <= len data ->
  let recent := skipn (List.length data - Z.to_nat window) data in
  len recent = window
  /\ predict_from_unders data threshold window min_unders
     = (Some (if min_unders <=? unders threshold recent then "Above" else "Under"),
        Some (unders threshold recent)).
Proof.
  intros Hw recent. split.
  - unfold recent, len in *. rewrite length_skipn. lia.
  - rewrite predict_counted by lia.
    rewrite slice_from_positive_window by exact Hw. reflexivity.
Qed.

Lemma predict_from_unders_any_window_witness :
  predict_from_unders history_14_unders 1.25 5 2 = (Some "Under", Some 0).
Proof.
  apply (predict_from_unders_any_window history_14_unders 1.25 5 2).
  unfold len; cbn; lia.
Defined.

(** X2: a window that is zero or negative never reports insufficient data:
    [data[-window:]] is then the history without its first [-window]
    entries, so a window of 0 counts the whole history. *)
Theorem predict_from_unders_nonpositive_window
    (data : list float) (threshold : float) (window min_unders : Z) :
  window <= 0 ->
  let recent := skipn (Z.to_nat (- window)) data in
  predict_from_unders data threshold window min_unders
  = (Some (if min_unders <=? unders threshold recent then "Above" else "Under"),
     Some (unders threshold recent))
  /\ (window = 0 -> recent = data).
Proof.
  intros Hw recent. split.
  - rewrite predict_counted by (unfold len; lia).
    rewrite slice_from_nonpositive_window by exact Hw. reflexivity.
  - intros Hzero. unfold recent. rewrite Hzero. reflexivity.
Qed.

Lemma predict_from_unders_nonpositive_window_witness :
  predict_from_unders [1.5; 2.5; 1.0]%float 2.0 0 2 = (Some "Above", Some 2).
Proof.
  apply (predict_from_unders_nonpositive_window [1.5; 2.5; 1.0]%float 2.0 0 2).
  lia.
Defined.

(** X3: whatever the arguments, the predictor returns either (None, None),
    exactly when the history is shorter than the window, or a label that is
    "Above" or "Under" with a count between 0 and the length of the history
    (and at most the window, when that is positive); the label is "Above"
    exactly when the count is at least [min_unders]. *)
Theorem predict_from_unders_range
    (data : list float) (threshold : float) (window min_unders : Z) :
  (len data < window
   /\ predict_from_unders data threshold window min_unders = (None, None))
  \/ (window <= len data
      /\ exists label count,
          predict_from_unders data threshold window min_unders
          = (Some label, Some count)
          /\ label_ok label
          /\ (label = "Above" <-> min_unders <= count)
          /\ 0 <= count <= len data
          /\ (0 < window -> count <= window)).
Proof.
  destruct (Z.lt_ge_cases (len data) window) as [Hshort|Hlong].
  - left. split; [exact Hshort|]. apply predict_insufficient. exact Hshort.
  - right. split; [exact Hlong|].
    set (recent := slice_from (- window) data).
    exists (if min_unders <=? unders threshold recent then "Above" else "Under"),
           (unders threshold recent).
    split; [apply predict_counted; exact Hlong|].
    assert (Hsuffix : (List.length recent <= List.length data)%nat).
    { unfold recent, slice_from. rewrite length_skipn. lia. }
    pose proof (unders_bounds threshold recent) as [Hlo Hhi].
    split; [|split; [|split]].
    + destruct (min_unders <=? _); [left|right]; reflexivity.
    + destruct (Z.leb_spec min_unders (unders threshold recent)) as [Hle|Hgt];
        split; intros H; try reflexivity; try lia; discriminate H.
    + unfold len in *. lia.
    + intros Hpos. apply unders_slice_le_window. lia.
Qed.

Lemma skipn_app_older {A : Type} (older l : list A) (n : nat) :
  (n <= List.length l)%nat ->
  skipn (List.length (older ++ l) - n) (older ++ l) = skipn (List.length l - n) l.
Proof.
  intros Hn. rewrite length_app.
  replace (List.length older + List.length l - n)%nat
    with (List.length older + (List.length l - n))%nat by lia.
  induction older as [|x older IH]; [reflexivity|exact IH].
Qed.

(** X4: for a positive window, 0 < window <= len(data), the prediction
    depends on the last [window] entries only: rounds older than a history
    that already fills the window change nothing.  (A window of 0 counts
    the whole history, so there older rounds do count.) *)
Theorem predict_from_unders_ignores_older
    (older data : list float) (threshold : float) (window min_unders : Z) :
  0 < window <= len data ->
  predict_from_unders (older ++ data) threshold window min_unders
  = predict_from_unders data threshold window min_unders.
Proof.
  intros Hw.
  assert (Hw' : 0 < window <= len (older ++ data)).
  { unfold len in *. rewrite length_app. lia. }
  rewrite !predict_counted by lia.
  rewrite (slice_from_positive_window window data Hw).
  rewrite (slice_from_positive_window window (older ++ data) Hw').
  rewrite skipn_app_older by (unfold len in Hw; lia). reflexivity.
Qed.

Lemma predict_from_unders_ignores_older_witness :
  predict_from_unders ([0.5; 0.5; 0.5] ++ skipn 3 history_14_unders)%float 2.0 WINDOW 14
  = predict_from_unders (skipn 3 history_14_unders) 2.0 WINDOW 14.
Proof.
  apply (predict_from_unders_ignores_older [0.5; 0.5; 0.5]%float
           (skipn 3 history_14_unders) 2.0 WINDOW 14).
  unfold len, WINDOW; cbn; lia.
Defined.

(** The window must be positive: with a window of 0 an older round below
    the threshold turns ("Under", 1) into ("Above", 2). *)
Example predict_window_zero_counts_older :
  predict_from_unders [1.5; 2.5]%float 2.0 0 2 = (Some "Under", Some 1)
  /\ predict_from_unders ([0.5] ++ [1.5; 2.5])%float 2.0 0 2 = (Some "Above", Some 2).
Proof. split; reflexivity. Qed.

(** X5: lowering [min_unders] never turns an "Above" into an "Under"; when
    a prediction is made, [min_unders <= 0] always gives "Above" and a
    [min_unders] above a positive window always gives "Under". *)
Theorem predict_from_unders_min_unders
    (data : list float) (threshold : float) (window : Z) :
  (forall m m',
     m' <= m ->
     fst (predict_from_unders data threshold window m) = Some "Above" ->
     predict_from_unders data threshold window m'
     = predict_from_unders data threshold window m)
  /\ (forall m, window <= len data -> m <= 0 ->
        fst (predict_from_unders data threshold window m) = Some "Above")
  /\ (forall m, 0 < window <= len data -> window < m ->
        fst (predict_from_unders data threshold window m) = Some "Under").
Proof.
  set (recent := slice_from (- window) data).
  pose proof (unders_bounds threshold recent) as [Hlo Hhi].
  split; [|split].
  - intros m m' Hle Habove.
    destruct (Z.lt_ge_cases (len data) window) as [Hshort|Hlong].
    + rewrite predict_insufficient in Habove by exact Hshort. discriminate Habove.
    + rewrite predict_counted in Habove by exact Hlong.
      rewrite !predict_counted by exact Hlong. fold recent in Habove |- *.
      cbn [fst] in Habove.
      destruct (Z.leb_spec m (unders threshold recent)) as [Hm|Hm];
        [|discriminate Habove].
      destruct (Z.leb_spec m' (unders threshold recent)) as [_|Hm']; [reflexivity|lia].
  - intros m Hlong Hm. rewrite predict_counted by exact Hlong. fold recent. cbn [fst].
    destruct (Z.leb_spec m (unders threshold recent)) as [_|Hgt]; [reflexivity|lia].
  - intros m Hw Hm. rewrite predict_counted by lia. fold recent. cbn [fst].
    pose proof (unders_slice_le_window threshold window data Hw) as Hwin.
    fold recent in Hwin.
    destruct (Z.leb_spec m (unders threshold recent)) as [Hle|_]; [lia|reflexivity].
Qed.

Lemma predict_from_unders_min_unders_witness :
  predict_from_unders history_14_unders 2.0 WINDOW 10
  = predict_from_unders history_14_unders 2.0 WINDOW 14.
Proof.
  apply (proj1 (predict_from_unders_min_unders history_14_unders 2.0 WINDOW) 14 10);
    [lia | reflexivity].
Defined.

(** ** Reading an uploaded table *)

Lemma column_app_absent (name : string) (before after : DataFrame) :
  column name before = None -> column name (before ++ after) = column name after.
Proof.
  induction before as [|[n cells] before IH]; cbn; [reflexivity|].
  destruct (String.eqb name n); [discriminate|exact IH].
Qed.

(** X6: [load_csv] returns the column named 'multiplier' wherever it stands
    in the table (the first one of that name); a table without such a
    column gives its first column, whatever its name; so every table with
    at least one column is read without an exception. *)
Theorem load_csv_column_choice :
  (forall before cells after,
     column "multiplier" before = None ->
     load_csv (before ++ ("multiplier", cells) :: after) = Ok cells)
  /\ (forall name cells rest,
        column "multiplier" ((name, cells) :: rest) = None ->
        load_csv ((name, cells) :: rest) = Ok cells)
  /\ (forall df, df <> [] -> exists cells, load_csv df = Ok cells).
Proof.
  split; [|split].
  - intros before cells after Hbefore. unfold load_csv.
    rewrite column_app_absent by exact Hbefore. cbn. reflexivity.
  - intros name cells rest Hnone. unfold load_csv. rewrite Hnone. reflexivity.
  - intros df Hdf. unfold load_csv.
    destruct (column "multiplier" df) as [cells|]; [exists cells; reflexivity|].
    destruct df as [|[n cells] rest]; [contradiction|exists cells; reflexivity].
Qed.

Lemma load_csv_column_choice_witness :
  load_csv ([("round", [1; 2]%float)] ++ ("multiplier", [1.5; 187]%float) :: [("note", [])])
  = Ok [1.5; 187]%float.
Proof.
  exact (proj1 load_csv_column_choice [("round", [1; 2]%float)] [1.5; 187]%float
           [("note", [])] eq_refl).
Defined.

(** X7: the reader of history.csv is stricter than the reader of uploads:
    on the same table both return the 'multiplier' column when there is
    one, but without it [load_history] raises KeyError where [load_csv]
    falls back on the first column. *)
Theorem load_history_stricter (df : DataFrame) (d : Disk) :
  history_csv d = Some df ->
  (forall cells, column "multiplier" df = Some cells ->
                 load_history d = Ok cells /\ load_csv df = Ok cells)
  /\ (column "multiplier" df = None ->
      load_history d = Err KeyError
      /\ (forall name cells rest, df = (name, cells) :: rest -> load_csv df = Ok cells)).
Proof.
  intros Hfile. unfold load_history, load_csv. rewrite Hfile. split.
  - intros cells Hcol. rewrite Hcol. split; reflexivity.
  - intros Hnone. rewrite Hnone. split; [reflexivity|].
    intros name cells rest ->. reflexivity.
Qed.

Lemma load_history_stricter_witness :
  load_history (write_history [("crash", [1.5; 2.5]%float)] empty_disk) = Err KeyError
  /\ load_csv [("crash", [1.5; 2.5]%float)] = Ok [1.5; 2.5]%float.
Proof.
  destruct (load_history_stricter [("crash", [1.5; 2.5]%float)]
              (write_history [("crash", [1.5; 2.5]%float)] empty_disk) eq_refl)
    as [_ Hstrict].
  destruct (Hstrict eq_refl) as [Hkey Hfirst].
  split; [exact Hkey | exact (Hfirst "crash" [1.5; 2.5]%float [] eq_refl)].
Defined.

(** ** The structure of a run *)

Lemma main_split (ui : Widgets) (w : World) :
  main ui w = bind (handlers ui) (fun _ => show_prediction (min_unders ui)) w.
Proof.
  unfold main, handlers, bind.
  destruct (has_history w) as [known w0|e w0]; [|reflexivity].
  destruct ((if known then ret tt
             else fun w1 => match from_disk load_history w1 with
                            | Returned a w' =>
                                match of_result a w' with
                                | Returned a0 w'0 => set_history a0 w'0
                                | Raised e w'0 => Raised e w'0
                                end
                            | Raised e w' => Raised e w'
                            end) w0) as [[] w1|e w1]; [|reflexivity].
  destruct (match uploaded ui with
            | Some file => handle_upload file
            | None => ret tt
            end w1) as [[] w2|e w2]; [|reflexivity].
  destruct ((if reset_clicked ui then handle_reset else ret tt) w2) as [[] w3|e w3];
    [|reflexivity].
  destruct ((if add_clicked ui then handle_add (new_val ui) else ret tt) w3)
    as [[] w4|e w4]; reflexivity.
Qed.

Lemma run_split (ui : Widgets) (w : World) :
  run ui w =
  match handlers ui w with
  | Returned _ w' => world_of (show_prediction (min_unders ui) w')
  | Raised _ w' => w'
  end.
Proof.
  unfold run. rewrite main_split. unfold bind.
  destruct (handlers ui w); reflexivity.
Qed.

(** ** Invariants of the runs *)

Lemma preserves_bind {A B : Type} (P : World -> Prop) (c : M A) (k : A -> M B) :
  preserves P c -> (forall a, preserves P (k a)) -> preserves P (bind c k).
Proof.
  intros Hc Hk w Hw. unfold bind. specialize (Hc w Hw).
  destruct (c w) as [a w'|e w']; cbn in Hc; [apply Hk; exact Hc | exact Hc].
Qed.

Lemma preserves_ret {A : Type} (P : World -> Prop) (a : A) : preserves P (ret a).
Proof. intros w Hw. exact Hw. Qed.

Lemma disk_ok_empty : disk_ok empty_disk.
Proof. repeat split. constructor. Qed.

Lemma disk_ok_save_history (data : list float) (d : Disk) :
  disk_ok d -> disk_ok (save_history data d).
Proof.
  intros (_ & Hrows & Hflat & Hfixed). repeat split.
  - exists data. reflexivity.
  - exact Hrows.
  - exact Hflat.
  - exact Hfixed.
Qed.

Lemma replay_flat_snoc (rows : list ResultRow) (r : ResultRow) :
  replay_flat (rows ++ [r]) =
  if String.eqb (prediction r) "Above"
  then (replay_flat rows + (if PrimFloat.ltb 2.0 (actual r) then 0.01 else -0.01))%float
  else replay_flat rows.
Proof. unfold replay_flat. rewrite fold_left_app. reflexivity. Qed.

Lemma replay_fixed_snoc (rows : list ResultRow) (r : ResultRow) :
  replay_fixed (rows ++ [r]) =
  if String.eqb (prediction r) "Above"
  then (replay_fixed rows + (if PrimFloat.ltb 2.0 (actual r) then 0.02 else -0.02))%float
  else replay_fixed rows.
Proof. unfold replay_fixed. rewrite fold_left_app. reflexivity. Qed.

Lemma row_ok_settled (p : string) (a : float) :
  label_ok p ->
  row_ok (mkRow p a ((String.eqb p "Above" && fgt a 2.0)
                     || (String.eqb p "Under" && fle a 2.0))).
Proof.
  intros Hp. split; [exact Hp|]. cbn [prediction actual correct]. unfold fgt, fle.
  rewrite orb_true_iff, !andb_true_iff, !String.eqb_eq. reflexivity.
Qed.

Lemma disk_ok_save_result (p : string) (a : float) (d : Disk) :
  label_ok p -> disk_ok d -> disk_ok (save_result p a d).
Proof.
  intros Hp (Hfile & Hrows & Hflat & Hfixed).
  rewrite save_result_unfold. cbv zeta.
  assert (Hall : Forall row_ok
            (load_results d ++
             [mkRow p a ((String.eqb p "Above" && fgt a 2.0)
                         || (String.eqb p "Under" && fle a 2.0))])).
  { apply Forall_app. split; [exact Hrows|].
    constructor; [apply row_ok_settled; exact Hp | constructor]. }
  destruct (String.eqb p "Above") eqn:Habove.
  - unfold disk_ok, history_file_ok, load_results, get_flat_balance, get_fixed_balance.
    cbn [history_csv results_csv sol_balance_txt fixed_balance_txt].
    fold (load_results d). fold (get_flat_balance d). fold (get_fixed_balance d).
    rewrite replay_flat_snoc, replay_fixed_snoc. cbn [prediction actual].
    rewrite Habove, Hflat, Hfixed. unfold fgt.
    repeat split; try assumption; destruct (PrimFloat.ltb 2.0 a); reflexivity.
  - unfold disk_ok, history_file_ok, load_results, get_flat_balance, get_fixed_balance.
    cbn [history_csv results_csv sol_balance_txt fixed_balance_txt].
    fold (load_results d). fold (get_flat_balance d). fold (get_fixed_balance d).
    rewrite replay_flat_snoc, replay_fixed_snoc. cbn [prediction actual].
    rewrite Habove. repeat split; assumption.
Qed.

Lemma init_ok (known : bool) :
  preserves world_ok
    (if known then ret tt
     else h <- from_disk load_history ;; h <- of_result h ;; set_history h)%monad.
Proof.
  destruct known; [apply preserves_ret|].
  intros [[hist lp] d] (Hp & Hs & Hd).
  unfold bind, from_disk, of_result. cbn [disk].
  destruct (load_history d) as [h|e] eqn:Hload; cbn;
    [|exact (conj Hp (conj Hs Hd))].
  split; [exact Hp|]. split; [|exact Hd].
  intros h' Hh'. cbn in Hh'. injection Hh' as <-. exact Hload.
Qed.

Lemma handle_upload_ok (file : DataFrame) : preserves world_ok (handle_upload file).
Proof.
  intros [[hist lp] d] (Hp & Hs & Hd).
  unfold handle_upload, bind, of_result.
  destruct (load_csv file) as [cells|e]; cbn; [|exact (conj Hp (conj Hs Hd))].
  split; [exact Hp|]. split.
  - intros h' Hh'. cbn in Hh'. injection Hh' as <-. reflexivity.
  - apply disk_ok_save_history. exact Hd.
Qed.

Lemma handle_reset_ok : preserves world_ok handle_reset.
Proof.
  intros w (Hp & Hs & Hd). rewrite handle_reset_run. cbn [world_of].
  split; [exact Hp|]. split.
  - intros h' Hh'. cbn in Hh'. injection Hh' as <-. reflexivity.
  - apply disk_ok_empty.
Qed.

Lemma handle_add_ok (nv : option float) : preserves world_ok (handle_add nv).
Proof.
  intros [[hist lp] d] (Hp & Hs & Hd).
  destruct nv as [v|]; [|exact (conj Hp (conj Hs Hd))].
  assert (Hsave : forall p, lp = Some p -> disk_ok (save_result p (normalize_input v) d)).
  { intros p ->. apply disk_ok_save_result; [apply Hp; reflexivity | exact Hd]. }
  destruct hist as [h|], lp as [p|]; cbn.
  - split; [intros q Hq; discriminate Hq|]. split.
    + intros h' Hh'. cbn in Hh'. injection Hh' as <-. reflexivity.
    + apply disk_ok_save_history. apply Hsave. reflexivity.
  - split; [intros q Hq; discriminate Hq|]. split.
    + intros h' Hh'. cbn in Hh'. injection Hh' as <-. reflexivity.
    + apply disk_ok_save_history. exact Hd.
  - split; [intros q Hq; discriminate Hq|]. split.
    + intros h' Hh'. discriminate Hh'.
    + apply Hsave. reflexivity.
  - exact (conj Hp (conj Hs Hd)).
Qed.

(** The label kept by the prediction block is the predictor's. *)
Lemma show_prediction_pending (m : Z) (w : World) :
  world_of (show_prediction m w) = w
  \/ exists p, label_ok p
       /\ world_of (show_prediction m w)
          = mkWorld (mkSession (history (session w)) (Some p)) (disk w).
Proof.
  destruct w as [[[[|x l]|] lp] d]; try (left; reflexivity).
  unfold show_prediction, bind, get_history. cbn [session history].
  unfold predict_from_unders.
  destruct (len (x :: l) <? WINDOW); [left; reflexivity|].
  destruct (_ >=? m); right; eexists; (split; [|reflexivity]);
    [left | right]; reflexivity.
Qed.

Lemma show_prediction_ok (m : Z) : preserves world_ok (show_prediction m).
Proof.
  intros w Hw. destruct (show_prediction_pending m w) as [->|(p & Hlabel & ->)];
    [exact Hw|].
  destruct Hw as (Hp & Hs & Hd). split; [|split].
  - intros q Hq. cbn in Hq. injection Hq as <-. exact Hlabel.
  - exact Hs.
  - exact Hd.
Qed.

Lemma main_ok (ui : Widgets) : preserves world_ok (main ui).
Proof.
  unfold main.
  apply preserves_bind; [intros w Hw; exact Hw|]. intros known.
  apply preserves_bind; [apply init_ok|]. intros _.
  apply preserves_bind.
  { destruct (uploaded ui); [apply handle_upload_ok | apply preserves_ret]. }
  intros _. apply preserves_bind.
  { destruct (reset_clicked ui); [apply handle_reset_ok | apply preserves_ret]. }
  intros _. apply preserves_bind.
  { destruct (add_clicked ui); [apply handle_add_ok | apply preserves_ret]. }
  intros _. apply show_prediction_ok.
Qed.

Lemma reachable_sessions_ok (w : World) : reachable_sessions w -> world_ok w.
Proof.
  induction 1 as [|ui w _ IH|w _ IH].
  - split; [intros p Hp; discriminate Hp|].
    split; [intros h Hh; discriminate Hh | apply disk_ok_empty].
  - apply main_ok. exact IH.
  - destruct IH as (_ & _ & Hd).
    split; [intros p Hp; discriminate Hp|].
    split; [intros h Hh; discriminate Hh | exact Hd].
Qed.

Lemma reachable_is_reachable_sessions (w : World) :
  reachable w -> reachable_sessions w.
Proof. induction 1; [constructor | constructor; assumption]. Qed.

Lemma session_20_rounds_reachable : reachable_sessions session_20_rounds.
Proof.
  apply reachable_is_reachable_sessions. apply reachable_runs. constructor.
Qed.

(** X8: in every state a sequence of runs and new sessions can reach, a
    pending prediction is "Above" or "Under", nothing else. *)
Theorem pending_label_invariant (w : World) (p : string) :
  reachable_sessions w ->
  last_prediction (session w) = Some p ->
  p = "Above" \/ p = "Under".
Proof.
  intros Hw Hp. destruct (reachable_sessions_ok w Hw) as (Hpending & _ & _).
  exact (Hpending p Hp).
Qed.

Lemma pending_label_invariant_witness : "Above" = "Above" \/ "Above" = "Under".
Proof.
  apply (pending_label_invariant session_20_rounds "Above");
    [exact session_20_rounds_reachable | vm_compute; reflexivity].
Defined.



(** X10: in every reachable state each row of the results has the label
    "Above" or "Under", and its flag is true exactly when the label is
    "Above" and the actual value is above 2.0, or the label is "Under" and
    the actual value is at most 2.0. *)
Theorem ledger_rows_invariant (w : World) (r : ResultRow) :
  reachable_sessions w ->
  In r (load_results (disk w)) ->
  (prediction r = "Above" \/ prediction r = "Under")
  /\ (correct r = true <->
      (prediction r = "Above" /\ PrimFloat.ltb 2.0 (actual r) = true)
      \/ (prediction r = "Under" /\ PrimFloat.leb (actual r) 2.0 = true)).
Proof.
  intros Hw Hr. destruct (reachable_sessions_ok w Hw) as (_ & _ & _ & Hrows & _).
  rewrite Forall_forall in Hrows. exact (Hrows r Hr).
Qed.

Lemma ledger_rows_invariant_witness :
  ("Above" = "Above" \/ "Above" = "Under")
  /\ (true = true <->
      ("Above" = "Above" /\ PrimFloat.ltb 2.0 3.0 = true)
      \/ ("Above" = "Under" /\ PrimFloat.leb 3.0 2.0 = true)).
Proof.
  apply (ledger_rows_invariant (run (ui_add 3.0) session_20_rounds)
           (mkRow "Above" 3.0 true)).
  - apply sessions_run. exact session_20_rounds_reachable.
  - vm_compute. left. reflexivity.
Defined.

(** X11: in every reachable state both balances are what a replay of the
    results gives: starting from 0.1, every "Above" row adds 0.01 (flat)
    and 0.02 (fixed) when its actual value is above 2.0 and subtracts them
    otherwise, and "Under" rows add nothing. *)
Theorem balances_replay_invariant (w : World) :
  reachable_sessions w ->
  get_flat_balance (disk w) = replay_flat (load_results (disk w))
  /\ get_fixed_balance (disk w) = replay_fixed (load_results (disk w)).
Proof.
  intros Hw. destruct (reachable_sessions_ok w Hw) as (_ & _ & _ & _ & Hflat & Hfixed).
  split; [exact Hflat | exact Hfixed].
Qed.

Lemma balances_replay_invariant_witness :
  get_flat_balance (disk (run (ui_add 1.5) (run (ui_add 3.0) session_20_rounds)))
  = replay_flat [mkRow "Above" 3.0 true; mkRow "Under" 1.5 true].
Proof.
  exact (proj1 (balances_replay_invariant
                  (run (ui_add 1.5) (run (ui_add 3.0) session_20_rounds))
                  (sessions_run _ _ (sessions_run _ _ session_20_rounds_reachable)))).
Defined.

(** ** Runs that return *)

Ltac step_handlers :=
  cbv beta iota zeta delta
    [handlers bind ret raise try_except has_history from_disk of_result on_disk
     get_history set_history history_append get_last_prediction del_last_prediction
     handle_upload handle_add session disk history last_prediction isSome
     uploaded reset_clicked add_clicked new_val min_unders].

Lemma history_file_loads (d : Disk) :
  history_file_ok d -> exists h, load_history d = Ok h.
Proof.
  unfold history_file_ok, load_history.
  destruct (history_csv d) as [df|]; [|exists []; reflexivity].
  intros [data ->]. exists data. reflexivity.
Qed.

Lemma load_csv_nonempty (file : DataFrame) :
  file <> [] -> exists cells, load_csv file = Ok cells.
Proof.
  intros Hfile. unfold load_csv.
  destruct (column "multiplier" file) as [cells|]; [exists cells; reflexivity|].
  destruct file as [|[n cells] rest]; [contradiction|exists cells; reflexivity].
Qed.

Lemma handle_reset_history (w : World) :
  exists w', handle_reset w = Returned tt w' /\ history (session w') = Some [].
Proof. eexists. split; [apply handle_reset_run | reflexivity]. Qed.

Lemma handle_add_history (nv : option float) (w : World) (h : list float) :
  history (session w) = Some h ->
  exists w' h', handle_add nv w = Returned tt w' /\ history (session w') = Some h'.
Proof.
  intros Hh. destruct w as [[hist lp] d]; cbn in Hh; subst.
  destruct nv as [v|], lp as [p|]; eexists; eexists; split; reflexivity.
Qed.

(** With a readable history file and a table that has a column, the
    handlers return and leave a history in the session. *)
Lemma handlers_return (ui : Widgets) (w : World) :
  history_file_ok (disk w) -> uploaded ui <> Some [] ->
  exists w' h, handlers ui w = Returned tt w' /\ history (session w') = Some h.
Proof.
  intros Hfile Hup.
  assert (H1 : exists w1 h1,
            bind has_history
              (fun known =>
                 if known then ret tt
                 else (h <- from_disk load_history ;; h <- of_result h ;; set_history h)%monad)
              w = Returned tt w1
            /\ history (session w1) = Some h1).
  { destruct w as [[[h|] lp] d]; [eexists; eexists; split; reflexivity|].
    destruct (history_file_loads d Hfile) as [h Hload].
    unfold bind, has_history, from_disk, of_result. cbn [session history isSome disk].
    rewrite Hload. eexists. eexists. split; reflexivity. }
  destruct H1 as (w1 & h1 & Hrun1 & Hh1).
  assert (H2 : exists w2 h2,
            match uploaded ui with
            | Some file => handle_upload file
            | None => ret tt
            end w1 = Returned tt w2
            /\ history (session w2) = Some h2).
  { destruct (uploaded ui) as [file|]; [|exists w1, h1; split; [reflexivity|exact Hh1]].
    destruct (load_csv_nonempty file) as [cells Hcells];
      [intros ->; apply Hup; reflexivity|].
    unfold handle_upload, bind, of_result. rewrite Hcells.
    eexists. eexists. split; reflexivity. }
  destruct H2 as (w2 & h2 & Hrun2 & Hh2).
  assert (H3 : exists w3 h3,
            (if reset_clicked ui then handle_reset else ret tt) w2 = Returned tt w3
            /\ history (session w3) = Some h3).
  { destruct (reset_clicked ui); [|exists w2, h2; split; [reflexivity|exact Hh2]].
    destruct (handle_reset_history w2) as (w3 & Hrun3 & Hh3).
    exists w3, []. split; assumption. }
  destruct H3 as (w3 & h3 & Hrun3 & Hh3).
  assert (H4 : exists w4 h4,
            (if add_clicked ui then handle_add (new_val ui) else ret tt) w3
            = Returned tt w4
            /\ history (session w4) = Some h4).
  { destruct (add_clicked ui); [|exists w3, h3; split; [reflexivity|exact Hh3]].
    apply (handle_add_history (new_val ui) w3 h3 Hh3). }
  destruct H4 as (w4 & h4 & Hrun4 & Hh4).
  exists w4, h4. split; [|exact Hh4].
  unfold handlers. unfold bind at 1. unfold bind at 1 in Hrun1.
  destruct (has_history w) as [known w0|e w0]; [|discriminate Hrun1].
  unfold bind at 1.
  destruct ((if known then ret tt
             else (h <- from_disk load_history ;; h <- of_result h ;; set_history h)%monad) w0)
    as [[] w1'|e w1']; [|discriminate Hrun1].
  injection Hrun1 as ->.
  unfold bind at 1. rewrite Hrun2.
  unfold bind at 1. rewrite Hrun3. exact Hrun4.
Qed.

Lemma show_prediction_returns (m : Z) (w : World) (h : list float) :
  history (session w) = Some h -> returned (show_prediction m w) = true.
Proof.
  intros Hh. destruct w as [[hist lp] d]; cbn in Hh; subst.
  unfold show_prediction, bind, get_history. cbn [session history].
  destruct h as [|x l]; [reflexivity|].
  unfold predict_from_unders.
  destruct (len (x :: l) <? WINDOW); [reflexivity|].
  destruct (_ >=? m); reflexivity.
Qed.

(** X12: in a reachable state, a run in which nothing is uploaded, or in
    which the uploaded table holds numbers and has at least one column,
    returns: none of the files the application wrote makes a later run
    raise, whatever is clicked and typed. *)
Theorem run_returns_on_numeric_upload (ui : Widgets) (w : World) :
  reachable_sessions w ->
  uploaded ui <> Some [] ->
  returned (main ui w) = true.
Proof.
  intros Hw Hup. destruct (reachable_sessions_ok w Hw) as (_ & _ & Hfile & _).
  destruct (handlers_return ui w Hfile Hup) as (w' & h & Hrun & Hh).
  rewrite main_split. unfold bind. rewrite Hrun.
  exact (show_prediction_returns (min_unders ui) w' h Hh).
Qed.

Lemma run_returns_on_numeric_upload_witness :
  returned (main (mkWidgets 14 (Some [("round", [1; 2]%float)]) false (Some 3.0%float) true)
                 session_20_rounds) = true.
Proof.
  apply (run_returns_on_numeric_upload
           (mkWidgets 14 (Some [("round", [1; 2]%float)]) false (Some 3.0%float) true)
           session_20_rounds session_20_rounds_reachable).
  discriminate.
Defined.

(** ** Uploads *)

(** What the handlers do when only a file is uploaded. *)
Lemma handlers_upload_only (ui : Widgets) (w : World) (file : DataFrame) (cells : list float) :
  uploaded ui = Some file -> load_csv file = Ok cells ->
  reset_clicked ui = false -> add_clicked ui = false ->
  history_file_ok (disk w) ->
  handlers ui w =
  Returned tt (mkWorld (mkSession (Some cells) (last_prediction (session w)))
                       (save_history cells (disk w))).
Proof.
  intros Hup Hcells Hreset Hadd Hfile.
  destruct ui as [m up rc nv ac]; cbn in Hup, Hreset, Hadd; subst.
  destruct w as [[[h|] lp] d].
  - step_handlers. rewrite Hcells. reflexivity.
  - destruct (history_file_loads d Hfile) as [h Hload]. cbn [disk] in *.
    step_handlers. rewrite Hload, Hcells. reflexivity.
Qed.

(** X13: a run that only uploads a table replaces the history, in the
    session and on disk, by the chosen column exactly as it is read: the
    values are not normalized (187 stays 187); the results and both
    balance files are left alone. *)
Theorem upload_replaces_history
    (ui : Widgets) (w : World) (file : DataFrame) (cells : list float) :
  reachable_sessions w ->
  uploaded ui = Some file -> load_csv file = Ok cells ->
  reset_clicked ui = false -> add_clicked ui = false ->
  returned (main ui w) = true
  /\ history (session (run ui w)) = Some cells
  /\ load_history (disk (run ui w)) = Ok cells
  /\ results_csv (disk (run ui w)) = results_csv (disk w)
  /\ sol_balance_txt (disk (run ui w)) = sol_balance_txt (disk w)
  /\ fixed_balance_txt (disk (run ui w)) = fixed_balance_txt (disk w).
Proof.
  intros Hw Hup Hcells Hreset Hadd.
  destruct (reachable_sessions_ok w Hw) as (_ & _ & Hfile & _).
  pose proof (handlers_upload_only ui w file cells Hup Hcells Hreset Hadd Hfile) as Hrun.
  set (w1 := mkWorld _ _) in Hrun.
  destruct (show_prediction_frame (min_unders ui) w1) as [Hdisk Hhist].
  split.
  - rewrite main_split. unfold bind. rewrite Hrun.
    apply (show_prediction_returns (min_unders ui) w1 cells). reflexivity.
  - rewrite run_split, Hrun, Hdisk, Hhist. unfold w1. cbn.
    repeat split; reflexivity.
Qed.

Lemma upload_replaces_history_witness :
  history (session (run (mkWidgets 14 (Some [("multiplier", [187; 1.5]%float)])
                                   false None false)
                        session_20_rounds))
  = Some [187; 1.5]%float.
Proof.
  apply (upload_replaces_history
           (mkWidgets 14 (Some [("multiplier", [187; 1.5]%float)]) false None false)
           session_20_rounds [("multiplier", [187; 1.5]%float)] [187; 1.5]%float
           session_20_rounds_reachable eq_refl eq_refl eq_refl eq_refl).
Defined.




(** ** Manual input *)

(** X15: text that [float] rejects makes the click on "Add multiplier" a
    run without a click: the world after it is that of the same run with
    the button not clicked, whatever the state. *)
Theorem invalid_input_is_no_click (ui : Widgets) (w : World) :
  add_clicked ui = true -> new_val ui = None ->
  main ui w
  = main (mkWidgets (min_unders ui) (uploaded ui) (reset_clicked ui) None false) w.
Proof.
  intros Hadd Hval. destruct ui as [m up rc nv ac]; cbn in Hadd, Hval; subst.
  reflexivity.
Qed.

Lemma invalid_input_is_no_click_witness :
  main (mkWidgets 14 None false None true) session_20_rounds
  = main (mkWidgets 14 None false None false) session_20_rounds.
Proof.
  exact (invalid_input_is_no_click (mkWidgets 14 None false None true)
           session_20_rounds eq_refl eq_refl).
Defined.

(** ** The results across a run *)

Lemma load_results_save_result (p : string) (a : float) (d : Disk) :
  load_results (save_result p a d)
  = load_results d
    ++ [mkRow p a ((String.eqb p "Above" && fgt a 2.0)
                   || (String.eqb p "Under" && fle a 2.0))].
Proof.
  rewrite save_result_unfold. cbv zeta.
  destruct (String.eqb p "Above"); reflexivity.
Qed.

Lemma load_results_save_history (data : list float) (d : Disk) :
  load_results (save_history data d) = load_results d.
Proof. reflexivity. Qed.

(** The results after the handlers, when the reset button is not clicked:
    the rows before, and one more row when a prediction is settled. *)
Lemma handlers_results (ui : Widgets) (w : World) :
  reset_clicked ui = false ->
  exists extra,
    load_results (disk (world_of (handlers ui w))) = load_results (disk w) ++ extra
    /\ (List.length extra <= 1)%nat
    /\ (extra <> [] ->
        add_clicked ui = true /\ new_val ui <> None
        /\ last_prediction (session w) <> None).
Proof.
  intros Hreset. destruct ui as [m up rc nv ac]; cbn in Hreset; subst.
  assert (Hnone : forall d : Disk,
            exists extra,
              load_results d = load_results d ++ extra
              /\ (List.length extra <= 1)%nat
              /\ (extra <> [] ->
                  ac = true /\ nv <> None /\ last_prediction (session w) <> None)).
  { intros d. exists []. rewrite app_nil_r.
    split; [reflexivity|]. split; [cbn; lia|]. intros H; contradiction. }
  destruct w as [[hist lp] d]. cbn [session last_prediction disk] in *.
  step_handlers.
  destruct hist as [h|]; [|destruct (load_history d) as [h|e]; [|apply Hnone]].
  all: destruct up as [file|]; [destruct (load_csv file) as [cells|e']; [|apply Hnone]|].
  all: destruct ac; [destruct nv as [v|]; [destruct lp as [p|]|]|];
    cbn [world_of disk]; rewrite ?load_results_save_history; try apply Hnone.
  all: eexists;
    (split; [rewrite load_results_save_result, ?load_results_save_history; reflexivity|]);
    (split; [cbn; lia|]); intros _; repeat split; discriminate.
Qed.

(** X16: a run in which the reset button is not clicked never removes or
    changes a row of the results: it keeps them all and appends at most one
    row, and it appends one only when "Add multiplier" is clicked on valid
    text while a prediction is pending. *)
Theorem results_append_only (ui : Widgets) (w : World) :
  reset_clicked ui = false ->
  exists extra,
    load_results (disk (run ui w)) = load_results (disk w) ++ extra
    /\ (List.length extra <= 1)%nat
    /\ (extra <> [] ->
        add_clicked ui = true /\ new_val ui <> None
        /\ last_prediction (session w) <> None).
Proof.
  intros Hreset. destruct (handlers_results ui w Hreset) as (extra & Hrows & Hextra).
  exists extra. split; [|exact Hextra].
  rewrite run_split. rewrite <- Hrows.
  destruct (handlers ui w) as [[] w'|e w']; cbn [world_of]; [|reflexivity].
  rewrite (proj1 (show_prediction_frame (min_unders ui) w')). reflexivity.
Qed.

Lemma results_append_only_witness :
  exists extra,
    load_results (disk (run (ui_add 3.0) session_20_rounds))
    = load_results (disk session_20_rounds) ++ extra
    /\ (List.length extra <= 1)%nat
    /\ (extra <> [] ->
        add_clicked (ui_add 3.0) = true /\ new_val (ui_add 3.0) <> None
        /\ last_prediction (session session_20_rounds) <> None).
Proof.
  exact (results_append_only (ui_add 3.0) session_20_rounds eq_refl).
Defined.

(** ** The prediction kept after a run *)

Lemma show_prediction_long (m : Z) (w : World) (h : list float) :
  history (session w) = Some h -> (20 <= List.length h)%nat ->
  last_prediction (session (world_of (show_prediction m w)))
  = fst (predict_from_unders h 2.0 WINDOW m).
Proof.
  intros Hh Hlong. destruct w as [[hist lp] d]; cbn in Hh; subst.
  unfold show_prediction, bind, get_history. cbn [session history].
  destruct h as [|x l]; [cbn in Hlong; lia|].
  rewrite predict_counted by (unfold WINDOW, len; lia).
  destruct (m <=? _); reflexivity.
Qed.

(** X17: after every run that returns with a history of at least 20
    rounds, the pending prediction is the predictor's answer on that
    history with the slider value of the run. *)
Theorem pending_is_current_prediction (ui : Widgets) (w : World) (h : list float) :
  returned (main ui w) = true ->
  history (session (run ui w)) = Some h ->
  (20 <= List.length h)%nat ->
  last_prediction (session (run ui w))
  = fst (predict_from_unders h 2.0 WINDOW (min_unders ui)).
Proof.
  intros Hret Hh Hlong. rewrite main_split in Hret. rewrite run_split in Hh |- *.
  unfold bind in Hret.
  destruct (handlers ui w) as [[] w'|e w']; [|discriminate Hret].
  rewrite (proj2 (show_prediction_frame (min_unders ui) w')) in Hh.
  exact (show_prediction_long (min_unders ui) w' h Hh Hlong).
Qed.

Lemma pending_is_current_prediction_witness :
  last_prediction (session (run (ui_add 3.0) session_20_rounds))
  = fst (predict_from_unders (skipn 3 history_14_unders ++ [3.0%float]) 2.0 WINDOW 14).
Proof.
  apply (pending_is_current_prediction (ui_add 3.0) session_20_rounds
           (skipn 3 history_14_unders ++ [3.0%float]));
    [vm_compute; reflexivity | vm_compute; reflexivity | cbn; lia].
Defined.

(** ** Sessions without upload and reset *)

Lemma idle_inv_runs (uis : list Widgets) (w : World) :
  Forall manual_only uis -> idle_inv w -> idle_inv (runs uis w).
Proof.
  intros Huis. revert w. induction Huis as [|ui uis [Hup Hreset] _ IH]; intros w Hw.
  - exact Hw.
  - cbn. apply IH. apply idle_inv_run; assumption.
Qed.

(** X18: in a session that starts fresh and never uploads a file nor clicks
    the reset button, nothing is pending as long as the history is shorter
    than 20 rounds. *)
Theorem idle_without_upload_or_reset (uis : list Widgets) :
  Forall manual_only uis ->
  idle_when_short (runs uis initial_world).
Proof.
  intros Huis. apply idle_inv_short. apply idle_inv_runs; [exact Huis|].
  reflexivity.
Qed.

Lemma idle_without_upload_or_reset_witness :
  idle_when_short (runs [ui_add 1.5; ui_add 250; mkWidgets 12 None false None true]
                        initial_world).
Proof.
  apply (idle_without_upload_or_reset
           [ui_add 1.5; ui_add 250; mkWidgets 12 None false None true]).
  repeat constructor.
Defined.






(** ** Settlement: edge cases and frame *)

(** X20: a NaN can be typed in: it is stored unchanged by the normalizer,
    settles every prediction as incorrect, costs the "Above" stake on both
    balances, and is never counted among the values below 2.0. *)
Theorem nan_is_a_loss :
  normalize_input nan = nan
  /\ (forall p d,
        load_results (save_result p nan d) = load_results d ++ [mkRow p nan false])
  /\ (forall d,
        get_flat_balance (save_result "Above" nan d)
        = (get_flat_balance d + (-0.01))%float
        /\ get_fixed_balance (save_result "Above" nan d)
           = (get_fixed_balance d + (-0.02))%float)
  /\ (forall l, unders 2.0 (nan :: l) = unders 2.0 l).
Proof.
  split; [reflexivity|]. split; [|split].
  - intros p d. rewrite load_results_save_result.
    change (fgt nan 2.0) with false. change (fle nan 2.0) with false.
    rewrite !andb_false_r. reflexivity.
  - intros d. rewrite save_result_unfold. split; reflexivity.
  - intros l. reflexivity.
Qed.



Lemma sum_bool_snoc (mask : list bool) (b : bool) :
  sum_bool (mask ++ [b]) = sum_bool mask + (if b then 1 else 0).
Proof.
  unfold sum_bool. rewrite fold_left_app. reflexivity.
Qed.

(** X22: each settlement raises the total of the accuracy tracker by one
    and the number of correct predictions by one exactly when the new row
    is flagged correct; after a settlement the metrics are shown. *)
Theorem accuracy_after_settlement (p : string) (a : float) (d : Disk) :
  let before := accuracy (load_results d) in
  let after := accuracy (load_results (save_result p a d)) in
  let flag := (String.eqb p "Above" && PrimFloat.ltb 2.0 a)
              || (String.eqb p "Under" && PrimFloat.leb a 2.0) in
  fst (fst after) = fst (fst before) + 1
  /\ snd (fst after) = snd (fst before) + (if flag then 1 else 0)
  /\ accuracy_tracker (save_result p a d) = Some after.
Proof.
  cbv zeta. rewrite load_results_save_result. unfold accuracy. cbn [fst snd].
  split; [|split].
  - unfold len. rewrite length_app. cbn. lia.
  - rewrite map_app. cbn [map correct]. rewrite sum_bool_snoc. reflexivity.
  - unfold accuracy_tracker. rewrite load_results_save_result.
    destruct (load_results d); reflexivity.
Qed.

(** ** Reset and new sessions *)

Lemma handlers_reset_only (ui : Widgets) (w : World) :
  reset_clicked ui = true -> add_clicked ui = false ->
  uploaded ui <> Some [] -> history_file_ok (disk w) ->
  handlers ui w =
  Returned tt (mkWorld (mkSession (Some []) (last_prediction (session w))) empty_disk).
Proof.
  intros Hreset Hadd Hup Hfile.
  destruct ui as [m up rc nv ac]; cbn in Hreset, Hadd, Hup; subst.
  assert (Hcsv : forall file, up = Some file -> exists cells, load_csv file = Ok cells).
  { intros file ->. apply load_csv_nonempty. intros ->. apply Hup. reflexivity. }
  destruct w as [[[h|] lp] d]; cbn [disk session last_prediction] in *.
  - destruct up as [file|]; [destruct (Hcsv file eq_refl) as [cells Hcells]|];
      step_handlers; rewrite ?Hcells; rewrite handle_reset_run; reflexivity.
  - destruct (history_file_loads d Hfile) as [h Hload].
    destruct up as [file|]; [destruct (Hcsv file eq_refl) as [cells Hcells]|];
      step_handlers; rewrite Hload, ?Hcells; rewrite handle_reset_run; reflexivity.
Qed.

(** X23: in a reachable state, a run in which the reset button is clicked
    removes all four files and empties the history, whatever was uploaded
    in the same run, and leaves the pending prediction as it was. *)
Theorem reset_run_effect (ui : Widgets) (w : World) :
  reachable_sessions w ->
  reset_clicked ui = true -> add_clicked ui = false ->
  uploaded ui <> Some [] ->
  returned (main ui w) = true
  /\ disk (run ui w) = empty_disk
  /\ history (session (run ui w)) = Some []
  /\ last_prediction (session (run ui w)) = last_prediction (session w).
Proof.
  intros Hw Hreset Hadd Hup.
  destruct (reachable_sessions_ok w Hw) as (_ & _ & Hfile & _).
  pose proof (handlers_reset_only ui w Hreset Hadd Hup Hfile) as Hrun.
  set (w1 := mkWorld _ _) in Hrun.
  assert (Hshow : show_prediction (min_unders ui) w1 = Returned tt w1).
  { apply (show_prediction_short (min_unders ui) w1 []); [reflexivity | cbn; lia]. }
  split.
  - rewrite main_split. unfold bind. rewrite Hrun, Hshow. reflexivity.
  - rewrite run_split, Hrun, Hshow. repeat split; reflexivity.
Qed.

Lemma reset_run_effect_witness :
  last_prediction (session (run ui_reset session_20_rounds))
  = last_prediction (session session_20_rounds).
Proof.
  apply (reset_run_effect ui_reset session_20_rounds session_20_rounds_reachable
           eq_refl eq_refl).
  discriminate.
Defined.



(** X25: [reset_balance] removes results.csv and both balance files when
    they exist and is harmless when they do not; it keeps history.csv, and
    running it twice is running it once. *)
Theorem reset_balance_effect (d : Disk) :
  history_csv (reset_balance d) = history_csv d
  /\ path_exists FLAT_FILE (reset_balance d) = false
  /\ path_exists FIXED_FILE (reset_balance d) = false
  /\ path_exists RESULTS_FILE (reset_balance d) = false
  /\ reset_balance (reset_balance d) = reset_balance d
  /\ (untouched d -> reset_balance d = d).
Proof.
  rewrite !reset_balance_removes. cbn. repeat split.
  intros (Hres & Hflat & Hfixed). destruct d as [h r fl fx].
  cbn in Hres, Hflat, Hfixed. subst. reflexivity.
Qed.

Lemma reset_balance_effect_witness :
  reset_balance (save_history [1.5]%float empty_disk) = save_history [1.5]%float empty_disk.
Proof.
  apply (proj2 (proj2 (proj2 (proj2 (proj2
           (reset_balance_effect (save_history [1.5]%float empty_disk))))))).
  repeat split.
Defined.
